(** * ip_freely: a subnet reachability sweeper

    A shallow embedding of [ip_freely.py] and the properties of its address
    arithmetic, its reverse-DNS wrapper, its ping invocation and its scan
    loop.

    Conventions of the embedding.
    - A Python [int] is a [Z]; [<<], [>>], [&], [|] and [~] are [Z.shiftl],
      [Z.shiftr], [Z.land], [Z.lor] and [Z.lnot] (Python integers are
      unbounded, and the source writes its 32-bit masks out).
    - A Python [str] is a [string]; its characters are the code points
      0..255.
    - A call that can raise returns a [res]; code that talks to the operating
      system runs in the monad [M], which threads the state of the outside
      world and records the calls made, in order.
    - A call of a library function that raises is a call all the same: the
      trace records it, with the exception in the place of the result.
    - The integers are those of the 64-bit build of CPython, of digits of 30
      bits; the file system encoding is UTF-8, and the standard output takes
      every string.
    - Resource exhaustion ([MemoryError]) and interrupts are not modelled. *)

From Stdlib Require Import ZArith Lia List String Ascii Bool DecimalString.
Import ListNotations.

Local Open Scope list_scope.
Local Open Scope string_scope.
Local Open Scope Z_scope.

(** ** Python exceptions and results *)

(** The exception classes that matter to the program: the two its own
    conversions raise ([ValueError], and [OverflowError] for a shift that
    asks for too many digits), the two [reverseDNS] has a handler for
    ([socket.herror], [socket.gaierror]), and three it has no handler for: the
    [UnicodeError] and the [TypeError] with which the socket module refuses a
    host name it cannot encode or cannot hand on as a C string, and any other
    [OSError]. *)
Inductive exn : Type :=
| ValueError
| OverflowError
| TypeError
| herror
| gaierror
| UnicodeError
| OSError.

Inductive res (A : Type) : Type :=
| Ret (a : A)
| Raise (e : exn).

Arguments Ret {A} a.
Arguments Raise {A} e.

Definition res_bind {A B : Type} (r : res A) (k : A -> res B) : res B :=
  match r with
  | Ret a => k a
  | Raise e => Raise e
  end.

Declare Scope res_scope.
Delimit Scope res_scope with res.
Notation "x <- r ;; k" := (res_bind r (fun x => k))
  (at level 61, r at next level, right associativity) : res_scope.

(** ** The Python builtins the program uses *)

Module Py.

(** [s.split(sep)] for a one-character separator: the fields between the
    occurrences of [sep], always at least one field. *)
Fixpoint split (sep : ascii) (s : string) : list string :=
  match s with
  | EmptyString => [EmptyString]
  | String c r =>
      if Ascii.eqb c sep then EmptyString :: split sep r
      else match split sep r with
           | f :: fs => String c f :: fs
           | [] => [String c EmptyString]
           end
  end.

(** [sep.join(l)]. *)
Fixpoint join (sep : string) (l : list string) : string :=
  match l with
  | [] => EmptyString
  | [x] => x
  | x :: rest => x ++ sep ++ join sep rest
  end.

(** [str(n)]: the decimal digits of [n], a minus sign before a negative. *)
Definition str (n : Z) : string := NilZero.string_of_int (Z.to_int n).

Definition code (c : ascii) : Z := Z.of_N (N_of_ascii c).

Definition is_digit (c : ascii) : bool := (48 <=? code c) && (code c <=? 57).

(** The characters [int()] skips around a literal: the ASCII white space and,
    above 127, NEL and the no-break space. *)
Definition is_space (c : ascii) : bool :=
  ((9 <=? code c) && (code c <=? 13)) || (code c =? 32)
  || (code c =? 133) || (code c =? 160).

Definition is_underscore (c : ascii) : bool := code c =? 95.

Fixpoint lstrip (s : string) : string :=
  match s with
  | String c r => if is_space c then lstrip r else s
  | EmptyString => EmptyString
  end.

(** The longest prefix of digits and underscores, and what follows it. *)
Fixpoint span_literal (s : string) : string * string :=
  match s with
  | String c r =>
      if is_digit c || is_underscore c
      then let (body, rest) := span_literal r in (String c body, rest)
      else (EmptyString, s)
  | EmptyString => (EmptyString, EmptyString)
  end.

(** An underscore stands between two digits only; [prev] says that the
    character before was an underscore, or that there was none. An empty
    literal is refused by the same test. *)
Fixpoint grouping_ok (prev : bool) (s : string) : bool :=
  match s with
  | EmptyString => negb prev
  | String c r =>
      if is_underscore c then negb prev && grouping_ok true r
      else grouping_ok false r
  end.

Fixpoint digits_of (s : string) : list Z :=
  match s with
  | EmptyString => []
  | String c r => if is_digit c then (code c - 48) :: digits_of r else digits_of r
  end.

Definition value_of (ds : list Z) : Z := fold_left (fun acc d => 10 * acc + d) ds 0.

Fixpoint all_space (s : string) : bool :=
  match s with
  | EmptyString => true
  | String c r => is_space c && all_space r
  end.

(** The default of [sys.int_max_str_digits]. *)
Definition int_max_str_digits : nat := 4300.

(** [int(s)] in base 10: white space, an optional sign, digits with single
    underscores between them, white space; anything else is a [ValueError]. *)
Definition int (s : string) : res Z :=
  let s1 := lstrip s in
  let '(negative, s2) :=
    match s1 with
    | String c r =>
        if code c =? 45 then (true, r)
        else if code c =? 43 then (false, r)
        else (false, s1)
    | EmptyString => (false, s1)
    end in
  let (body, rest) := span_literal s2 in
  let ds := digits_of body in
  if grouping_ok true body && (List.length ds <=? int_max_str_digits)%nat && all_space rest
  then Ret (if negative then - value_of ds else value_of ds)
  else Raise ValueError.

(** [range(lo, hi)] as the list it yields. *)
Definition range (lo hi : Z) : list Z :=
  map (fun i => lo + Z.of_nat i) (seq 0 (Z.to_nat (hi - lo))).

(** The most digits an integer can have ([MAX_LONG_DIGITS]), and the digits
    a non-zero integer has. *)
Definition max_long_digits : Z := (2 ^ 63 - 1 - 24) / 4.

Definition long_digits (x : Z) : Z := Z.log2 (Z.abs x) / 30 + 1.

(** [x << n]: a negative shift count is a [ValueError]; zero stays zero; a
    result with more digits than an integer can have is an [OverflowError]
    ("too many digits in integer"). The result has the digits of [x], one
    digit more for every 30 places, and one more for what is left of the
    count. *)
Definition lshift (x n : Z) : res Z :=
  if n <? 0 then Raise ValueError
  else if x =? 0 then Ret 0
  else if max_long_digits <? long_digits x + n / 30 + (if n mod 30 =? 0 then 0 else 1)
       then Raise OverflowError
       else Ret (Z.shiftl x n).

End Py.

(** ** Address arithmetic *)

Definition dot : ascii := "."%char.
Definition slash : ascii := "/"%char.

(** [IPToInt]: four dot-separated fields, packed big-endian. *)
Definition IPToInt (ip : string) : res Z :=
  match Py.split dot ip with
  | [a; b; c; d] =>
      (a' <- Py.int a ;;
       b' <- Py.int b ;;
       c' <- Py.int c ;;
       d' <- Py.int d ;;
       Ret (Z.lor (Z.lor (Z.lor (Z.shiftl a' 24) (Z.shiftl b' 16)) (Z.shiftl c' 8)) d'))%res
  | _ => Raise ValueError
  end.

(** [intToIP]: the four octets of [n], most significant first. *)
Definition intToIP (n : Z) : string :=
  Py.join "." (map (fun s => Py.str (Z.land (Z.shiftr n s) 255)) [24; 16; 8; 0]).

(** [cidrToIPS]: every address of the block, network and broadcast address
    included. *)
Definition cidrToIPS (cidr : string) : res (list string) :=
  match Py.split slash cidr with
  | [ip; prefix] =>
      (prefix <- Py.int prefix ;;
       ip_int <- IPToInt ip ;;
       shifted <- Py.lshift 4294967295 (32 - prefix) ;;
       let mask := Z.land shifted 4294967295 in
       let network := Z.land ip_int mask in
       let broadcast := Z.lor network (Z.land (Z.lnot mask) 4294967295) in
       Ret (map intToIP (Py.range network (broadcast + 1))))%res
  | _ => Raise ValueError
  end.

(** ** The outside world *)

(** What [socket.gethostbyaddr] returns: hostname, aliases, addresses. *)
Definition dns_answer : Type := (string * list string * list string)%type.

(** The dictionary [reverseDNS] returns; [error = None] is the dictionary
    without an ['error'] key. *)
Record dns_info : Type := {
  dns_ip : string;
  hostname : option string;
  aliases : list string;
  addresses : list string;
  error : option string
}.

(** One entry of the list [runList] returns. *)
Record scan_record : Type := {
  ip : string;
  status : string;
  dns : dns_info
}.

(** One row of the exported table, columns in the order of the source. *)
Record csv_row : Type := {
  col_ip_address : string;
  col_status : string;
  col_hostname : string;
  col_aliases : string;
  col_addresses : string;
  col_dns_error : string
}.

(** [c in s], for a character. *)
Fixpoint occurs (c : ascii) (s : string) : bool :=
  match s with
  | EmptyString => false
  | String x r => Ascii.eqb x c || occurs c r
  end.

(** The character of code 0, which ends a C string. *)
Definition nul : ascii := ascii_of_nat 0.

(** The lookup returned, or raised one of the two classes [reverseDNS] has a
    handler for. *)
Definition lookup_handled (r : res dns_answer) : bool :=
  match r with
  | Ret _ | Raise herror | Raise gaierror => true
  | Raise _ => false
  end.

(** The operating system and the libraries behind the program, as functions
    of the state of the world: the shell that [os.system] starts on a command
    line, [socket.gethostbyaddr], [datetime.now().strftime] and
    [DataFrame(rows).to_csv]. Of [socket.gethostbyaddr] one thing is known
    whatever the resolver: it hands its argument on as a C string, so a host
    name with a NUL character in it is refused before any lookup. The call
    raises then, a [TypeError], or the [UnicodeError] of the encoder when that
    one fails first: not an [herror], not a [gaierror]. *)
Class System : Type := {
  World : Type;
  os_system : string -> World -> Z * World;
  gethostbyaddr : string -> World -> res dns_answer * World;
  strftime_now : string -> World -> string * World;
  to_csv : list csv_row -> string -> World -> res unit * World;
  gethostbyaddr_nul :
    forall addr w, occurs nul addr = true ->
                   lookup_handled (fst (gethostbyaddr addr w)) = false
}.

(** What the program does to the world, in the order it does it. A call and
    its return are two events: the work is in flight between them. *)
Inductive event : Type :=
| Printed (line : string)
| SystemCall (cmd : string)
| SystemRet (r : res Z)
| LookupCall (addr : string)
| LookupRet (r : res dns_answer)
| ClockRead (stamp : string)
| CsvWrite (rows : list csv_row) (path : string) (r : res unit).

Section Monad.

Context {Sys : System}.

(** A computation: from a world to a result or an exception, the world after,
    and the events on the way. *)
Definition M (A : Type) : Type := World -> res A * World * list event.

Definition ret {A : Type} (a : A) : M A := fun w => (Ret a, w, []).

Definition bind {A B : Type} (m : M A) (k : A -> M B) : M B :=
  fun w =>
    match m w with
    | (Ret a, w1, t1) => let '(r, w2, t2) := k a w1 in (r, w2, t1 ++ t2)%list
    | (Raise e, w1, t1) => (Raise e, w1, t1)
    end.

(** [try: m  except <the classes handler answers for>: ...]. *)
Definition try_except {A : Type} (m : M A) (handler : exn -> option (M A)) : M A :=
  fun w =>
    match m w with
    | (Ret a, w1, t1) => (Ret a, w1, t1)
    | (Raise e, w1, t1) =>
        match handler e with
        | Some k => let '(r, w2, t2) := k w1 in (r, w2, t1 ++ t2)%list
        | None => (Raise e, w1, t1)
        end
    end.

Definition print (line : string) : M unit := fun w => (Ret tt, w, [Printed line]).

(** [os.system(cmd)]: the command line is handed on as a C string, so one
    with a NUL character in it is refused with a [ValueError] ("embedded null
    byte") and no shell is started; otherwise the call returns the status of
    the shell. *)
Definition call_os_system (cmd : string) : M Z :=
  fun w =>
    if occurs nul cmd
    then (Raise ValueError, w, [SystemCall cmd; SystemRet (Raise ValueError)])
    else let (st, w1) := os_system cmd w in
         (Ret st, w1, [SystemCall cmd; SystemRet (Ret st)]).

Definition call_gethostbyaddr (addr : string) : M dns_answer :=
  fun w => let (r, w1) := gethostbyaddr addr w in (r, w1, [LookupCall addr; LookupRet r]).

Definition call_strftime_now (fmt : string) : M string :=
  fun w => let (s, w1) := strftime_now fmt w in (Ret s, w1, [ClockRead s]).

Definition call_to_csv (rows : list csv_row) (path : string) : M unit :=
  fun w => let (r, w1) := to_csv rows path w in (r, w1, [CsvWrite rows path r]).

Definition result_of {A : Type} (o : res A * World * list event) : res A := fst (fst o).
Definition world_of {A : Type} (o : res A * World * list event) : World := snd (fst o).
Definition trace_of {A : Type} (o : res A * World * list event) : list event := snd o.

End Monad.

Declare Scope M_scope.
Delimit Scope M_scope with M.
Notation "x <- m ;; k" := (bind m (fun x => k))
  (at level 61, m at next level, right associativity) : M_scope.
Notation "m ;;; k" := (bind m (fun _ => k))
  (at level 61, right associativity) : M_scope.

(** ** The program *)

Section Program.

Context {Sys : System}.

Local Open Scope M_scope.

Definition nl : string := String (ascii_of_nat 10) EmptyString.

(** [reverseDNS]: the lookup, with [herror] and [gaierror] turned into a
    dictionary that carries an error text; any other exception leaves the
    function. *)
Definition reverseDNS (addr : string) : M dns_info :=
  try_except
    (ans <- call_gethostbyaddr addr ;;
     let '(h, al, ad) := ans in
     ret {| dns_ip := addr; hostname := Some h; aliases := al; addresses := ad;
            error := None |})
    (fun e =>
       match e with
       | herror =>
           Some (ret {| dns_ip := addr; hostname := None; aliases := [];
                        addresses := []; error := Some "No PTR record found" |})
       | gaierror =>
           Some (ret {| dns_ip := addr; hostname := None; aliases := [];
                        addresses := []; error := Some "Invalid IP address" |})
       | _ => None
       end).

(** The text [pingHost] hands to the shell. *)
Definition ping_command (target : string) : string :=
  "ping -c 1 " ++ target ++ " > /dev/null 2>&1".

(** [pingHost]: the status [os.system] returns for the ping command. *)
Definition pingHost (target : string) : M Z :=
  response <- call_os_system (ping_command target) ;;
  ret response.

(** [x or ""] for an optional string. *)
Definition or_empty (x : option string) : string :=
  match x with
  | Some s => s
  | None => EmptyString
  end.

Definition row_of (r : scan_record) : csv_row :=
  {| col_ip_address := ip r;
     col_status := status r;
     col_hostname := or_empty (hostname (dns r));
     col_aliases := Py.join ", " (aliases (dns r));
     col_addresses := Py.join ", " (addresses (dns r));
     col_dns_error := or_empty (error (dns r)) |}.

(** [exportToCSV]. *)
Definition exportToCSV (results : list scan_record) (output_file : option string)
  : M string :=
  output_file <- match output_file with
                 | None =>
                     timestamp <- call_strftime_now "%Y%m%d_%H%M%S" ;;
                     ret ("scan_results_" ++ timestamp ++ ".csv")
                 | Some f => ret f
                 end ;;
  let rows := map row_of results in
  call_to_csv rows output_file ;;;
  print (nl ++ "Results exported to: " ++ output_file) ;;;
  ret output_file.

(** How an f-string shows an optional string. *)
Definition show (x : option string) : string :=
  match x with
  | Some s => s
  | None => "None"
  end.

(** The state of the loop of [runList]: [active], [inactive], [results]. *)
Definition loop_state : Type := (Z * Z * list scan_record)%type.

(** The body of the loop, for one host. *)
Definition scan_host (host : string) (s : loop_state) : M loop_state :=
  let '(active, inactive, results) := s in
  print ("Pinging " ++ host ++ "...") ;;;
  response <- pingHost host ;;
  let reachable := response =? 0 in
  dns_info <- reverseDNS host ;;
  counted <- (if reachable
              then print (host ++ " is reachable.") ;;;
                   print ("  Hostname: " ++ show (hostname dns_info)) ;;;
                   ret (active + 1, inactive, "active")
              else print (host ++ " is not reachable.") ;;;
                   ret (active, inactive + 1, "inactive")) ;;
  let '(active, inactive, status) := counted in
  ret (active, inactive,
       (results ++ [{| ip := host; status := status; dns := dns_info |}])%list).

Fixpoint scan_hosts (hosts : list string) (s : loop_state) : M loop_state :=
  match hosts with
  | [] => ret s
  | host :: rest => s1 <- scan_host host s ;; scan_hosts rest s1
  end.

Definition summary_line (active inactive : Z) : string :=
  nl ++ "Summary: " ++ Py.str active ++ " active, " ++ Py.str inactive ++ " inactive.".

(** [runList]. *)
Definition runList (hosts : list string) (export_csv : bool) (csv_file : option string)
  : M (list scan_record) :=
  s <- scan_hosts hosts (0, 0, []) ;;
  let '(active, inactive, results) := s in
  print (summary_line active inactive) ;;;
  (if export_csv then exportToCSV results csv_file ;;; ret tt else ret tt) ;;;
  ret results.

End Program.

(** ** Vocabulary: lists *)

(** A list of integers in strictly ascending order. *)
Fixpoint ascending (l : list Z) : bool :=
  match l with
  | x :: (y :: _) as r => (x <? y) && ascending r
  | _ => true
  end.

(** ** Vocabulary: octets *)

Definition octets : list Z := Py.range 0 256.

Definition digit_chars : list ascii :=
  ["0"; "1"; "2"; "3"; "4"; "5"; "6"; "7"; "8"; "9"]%char.

Fixpoint all_digits (s : string) : bool :=
  match s with
  | EmptyString => true
  | String c r => Py.is_digit c && all_digits r
  end.

Definition res_eqb (r : res Z) (k : Z) : bool :=
  match r with
  | Ret v => v =? k
  | Raise _ => false
  end.

(** The canonical decimal form of an octet: one to three digits, no leading
    zero before another digit, value at most 255. *)
Definition octet_literal (f : string) : bool :=
  match f with
  | String a EmptyString => Py.is_digit a
  | String a (String b EmptyString) =>
      Py.is_digit a && Py.is_digit b && negb (Ascii.eqb a "0")
  | String a (String b (String c EmptyString)) =>
      Py.is_digit a && Py.is_digit b && Py.is_digit c && negb (Ascii.eqb a "0")
      && (100 * (Py.code a - 48) + 10 * (Py.code b - 48) + (Py.code c - 48) <=? 255)
  | _ => false
  end.

(** What the decimal form of an octet is like: it reads back as the octet,
    it is made of digits, and it is canonical. *)
Definition octet_form_ok (k : Z) : bool :=
  res_eqb (Py.int (Py.str k)) k
  && all_digits (Py.str k)
  && octet_literal (Py.str k).

Definition pack (a b c d : Z) : Z :=
  Z.lor (Z.lor (Z.lor (Z.shiftl a 24) (Z.shiftl b 16)) (Z.shiftl c 8)) d.

Definition octet_at (n s : Z) : Z := Z.land (Z.shiftr n s) 255.

(** A valid dotted-decimal IPv4 string: four canonical octets between three
    dots, nothing else. *)
Definition valid_ip (s : string) : bool :=
  match Py.split dot s with
  | [a; b; c; d] => octet_literal a && octet_literal b && octet_literal c && octet_literal d
  | _ => false
  end.

Definition is_octet_form (f : string) : bool :=
  existsb (String.eqb f) (map Py.str octets).

(** ** Vocabulary: CIDR blocks *)

(** The five numbers [cidrToIPS] reads in its argument: four octets and the
    prefix length; [None] when the string has not exactly one slash, or its
    address part has not exactly three dots, or a field is not an [int]
    literal. *)
Definition parse_cidr (cidr : string) : option (Z * Z * Z * Z * Z) :=
  match Py.split slash cidr with
  | [addr; prefix] =>
      match Py.split dot addr with
      | [fa; fb; fc; fd] =>
          match Py.int fa, Py.int fb, Py.int fc, Py.int fd, Py.int prefix with
          | Ret a, Ret b, Ret c, Ret d, Ret p => Some (a, b, c, d, p)
          | _, _, _, _, _ => None
          end
      | _ => None
      end
  | _ => None
  end.

(** The mask of the source, and its 32-bit complement. *)
Definition code_mask (p : Z) : Z := Z.land (Z.shiftl 4294967295 (32 - p)) 4294967295.
Definition code_host_bits (p : Z) : Z := Z.land (Z.lnot (code_mask p)) 4294967295.

(** The block of the data model: the mask has the top [p] of 32 bits set,
    the network address is [ip & mask], the broadcast address is
    [network | ~mask]. *)
Definition mask_of (p : Z) : Z := Z.shiftl (Z.ones p) (32 - p).
Definition network_of (addr p : Z) : Z := Z.land addr (mask_of p).
Definition broadcast_of (addr p : Z) : Z :=
  Z.lor (network_of addr p) (Z.lxor (mask_of p) 4294967295).

Definition prefix_lengths : list Z := Py.range 0 33.

(** The largest count by which [0xFFFFFFFF], an integer of two digits, can be
    shifted: 69175290276410818290. *)
Definition max_shift : Z := 30 * (Py.max_long_digits - 2).

Definition mask_ok (p : Z) : bool :=
  (code_mask p =? mask_of p)
  && (code_host_bits p =? Z.lxor (mask_of p) 4294967295)
  && (code_host_bits p =? 2 ^ (32 - p) - 1)
  && (Z.land (mask_of p) (code_host_bits p) =? 0)
  && (0 <=? mask_of p).

(** The form the interface asks of a CIDR string: a valid dotted-decimal
    address, a slash, and a prefix length from 0 to 32 in decimal. *)
Definition prefix_literal (f : string) : bool :=
  existsb (String.eqb f) (map Py.str prefix_lengths).

Definition well_formed_cidr (cidr : string) : bool :=
  match Py.split slash cidr with
  | [addr; prefix] => valid_ip addr && prefix_literal prefix
  | _ => false
  end.

(** ** Vocabulary: lookups and laboratories *)

(** The dictionary [reverseDNS] builds from what the lookup did. *)
Definition dns_of (addr : string) (r : res dns_answer) : res dns_info :=
  match r with
  | Ret (h, al, ad) =>
      Ret {| dns_ip := addr; hostname := Some h; aliases := al; addresses := ad;
             error := None |}
  | Raise herror =>
      Ret {| dns_ip := addr; hostname := None; aliases := []; addresses := [];
             error := Some "No PTR record found" |}
  | Raise gaierror =>
      Ret {| dns_ip := addr; hostname := None; aliases := []; addresses := [];
             error := Some "Invalid IP address" |}
  | Raise e => Raise e
  end.

(** The socket module in the laboratories: a host name with a NUL character
    in it is refused with a [TypeError], any other is looked up. *)
Definition checked (lookup : string -> res dns_answer) (addr : string) : res dns_answer :=
  if occurs nul addr then Raise TypeError else lookup addr.

(** A laboratory: the host 10.0.0.1 answers the ping and has a PTR record,
    10.0.0.3 is refused by the resolver, no other host answers or has a record;
    the export succeeds. *)
Definition lab : System :=
  {| World := unit;
     os_system := fun cmd w =>
       (if String.eqb cmd "ping -c 1 10.0.0.1 > /dev/null 2>&1" then 0 else 256, w);
     gethostbyaddr := fun addr w =>
       (checked (fun a => if String.eqb a "10.0.0.1"
                          then Ret ("gateway.lan", [], ["10.0.0.1"])
                          else if String.eqb a "10.0.0.3" then Raise gaierror
                          else Raise herror) addr, w);
     strftime_now := fun _ w => ("20240101_120000", w);
     to_csv := fun _ _ w => (Ret tt, w);
     gethostbyaddr_nul := ltac:(intros addr w H; unfold checked; simpl fst;
                                rewrite H; reflexivity) |}.

(** The same laboratory, with the encoder of the socket module: the malformed
    address ["1..2"], whose second label is empty, is refused before any
    lookup, with a [UnicodeError]. *)
Definition faulty_lab : System :=
  {| World := unit;
     os_system := fun cmd w =>
       (if String.eqb cmd "ping -c 1 10.0.0.1 > /dev/null 2>&1" then 0 else 256, w);
     gethostbyaddr := fun addr w =>
       (checked (fun a => if String.eqb a "10.0.0.1"
                          then Ret ("gateway.lan", [], ["10.0.0.1"])
                          else if String.eqb a "1..2" then Raise UnicodeError
                          else Raise herror) addr, w);
     strftime_now := fun _ w => ("20240101_120000", w);
     to_csv := fun _ _ w => (Ret tt, w);
     gethostbyaddr_nul := ltac:(intros addr w H; unfold checked; simpl fst;
                                rewrite H; reflexivity) |}.

(** ** Vocabulary: the ping command *)

(** The characters of an address as [intToIP] writes it. *)
Definition address_char (c : ascii) : bool := Py.is_digit c || Ascii.eqb c dot.

Fixpoint all_chars (p : ascii -> bool) (s : string) : bool :=
  match s with
  | EmptyString => true
  | String c r => p c && all_chars p r
  end.

(** The commands of a shell command line without quotes: the shell runs what
    stands between the semicolons, one after the other. *)
Definition shell_list (cmd : string) : list string := Py.split ";"%char cmd.

(** ** Vocabulary: the scan loop *)

Definition status_of (st : Z) : string := if st =? 0 then "active" else "inactive".

Definition count_status (s : string) (rs : list scan_record) : Z :=
  Z.of_nat (List.length (filter (fun r => String.eqb (status r) s) rs)).

(** The change of the number of units of work in flight at an event: the work
    for an address starts when its ping is launched and ends when its lookup
    has returned or raised, or when the ping itself has raised. *)
Definition delta (e : event) : Z :=
  match e with
  | SystemCall _ => 1
  | SystemRet (Raise _) => -1
  | LookupRet _ => -1
  | _ => 0
  end.

Fixpoint in_flight (t : list event) : Z :=
  match t with
  | [] => 0
  | e :: r => delta e + in_flight r
  end.



Definition quiet (e : event) : bool := delta e =? 0.

Definition is_printed (e : event) : bool :=
  match e with
  | Printed _ => true
  | _ => false
  end.

Section Environment.

Context {Sys : System}.

(** The lookup of each of the hosts returns, or raises a class [reverseDNS]
    has a handler for, in every state of the world. *)
Definition hosts_handled (hosts : list string) : Prop :=
  forall host w, In host hosts -> lookup_handled (fst (gethostbyaddr host w)) = true.

Definition export_succeeds : Prop :=
  forall rows path w, fst (to_csv rows path w) = Ret tt.

End Environment.

Definition lab_hosts : list string := ["10.0.0.1"; "10.0.0.2"; "10.0.0.3"].

(** A host name without a NUL character, and one with: [a], NUL, [b]. *)
Definition no_nul (host : string) : bool := negb (occurs nul host).

Definition nul_host : string := String "a" (String nul (String "b" EmptyString)).

(** ** Vocabulary: more on blocks *)

(** What the decimal form of a prefix length is like: it reads back as the
    number, and it is made of digits. *)
Definition prefix_form_ok (p : Z) : bool :=
  res_eqb (Py.int (Py.str p)) p && all_digits (Py.str p).

(** What the mask of a prefix length is like among the 32-bit values: it is
    one, and its complement fills the 32 bits up. *)
Definition mask_fits (p : Z) : bool :=
  (Z.land (mask_of p) (Z.ones 32) =? mask_of p)
  && (Z.lor (mask_of p) (code_host_bits p) =? Z.ones 32)
  && (code_host_bits p =? Z.ones (32 - p)).

(** The CIDR string of an address and a prefix length. *)
Definition cidr_of (addr : string) (p : Z) : string := addr ++ "/" ++ Py.str p.

(** ** Vocabulary: more on scans *)

(** The command lines handed to [os.system], the statuses that came back,
    and the hosts looked up, in the order of the trace. *)
Definition pings (t : list event) : list string :=
  flat_map (fun e => match e with SystemCall cmd => [cmd] | _ => [] end) t.

Definition ping_results (t : list event) : list Z :=
  flat_map (fun e => match e with SystemRet (Ret st) => [st] | _ => [] end) t.

Definition lookups (t : list event) : list string :=
  flat_map (fun e => match e with LookupCall addr => [addr] | _ => [] end) t.

(** The tables written, each with its path, and the stamps read off the
    clock. *)
Definition csv_writes (t : list event) : list (list csv_row * string) :=
  flat_map (fun e => match e with CsvWrite rows path _ => [(rows, path)] | _ => [] end) t.

Definition clock_reads (t : list event) : list string :=
  flat_map (fun e => match e with ClockRead stamp => [stamp] | _ => [] end) t.

Definition is_nil {A : Type} (l : list A) : bool :=
  match l with
  | [] => true
  | _ :: _ => false
  end.

(** A record as the loop builds it: one of the two statuses, the lookup of
    the host itself, and either a hostname and no error or no hostname, no
    aliases, no addresses and one of the two error texts. *)
Definition record_ok (r : scan_record) : bool :=
  (String.eqb (status r) "active" || String.eqb (status r) "inactive")
  && String.eqb (dns_ip (dns r)) (ip r)
  && match hostname (dns r), error (dns r) with
     | Some _, None => true
     | None, Some e =>
         (String.eqb e "No PTR record found" || String.eqb e "Invalid IP address")
         && is_nil (aliases (dns r)) && is_nil (addresses (dns r))
     | _, _ => false
     end.

Section EntryPoint.

Context {Sys : System}.



End EntryPoint.

(** The records of the scan of [lab_hosts] in the laboratory. *)
Definition lab_records : list scan_record :=
  [ {| ip := "10.0.0.1"; status := "active";
       dns := {| dns_ip := "10.0.0.1"; hostname := Some "gateway.lan"; aliases := [];
                 addresses := ["10.0.0.1"]; error := None |} |};
    {| ip := "10.0.0.2"; status := "inactive";
       dns := {| dns_ip := "10.0.0.2"; hostname := None; aliases := [];
                 addresses := []; error := Some "No PTR record found" |} |};
    {| ip := "10.0.0.3"; status := "inactive";
       dns := {| dns_ip := "10.0.0.3"; hostname := None; aliases := [];
                 addresses := []; error := Some "Invalid IP address" |} |} ].

(** The laboratory on a disk that cannot be written: the table writer raises
    an [OSError]. *)
Definition readonly_lab : System :=
  {| World := unit;
     os_system := fun cmd w =>
       (if String.eqb cmd "ping -c 1 10.0.0.1 > /dev/null 2>&1" then 0 else 256, w);
     gethostbyaddr := fun addr w =>
       (checked (fun a => if String.eqb a "10.0.0.1"
                          then Ret ("gateway.lan", [], ["10.0.0.1"])
                          else if String.eqb a "10.0.0.3" then Raise gaierror
                          else Raise herror) addr, w);
     strftime_now := fun _ w => ("20240101_120000", w);
     to_csv := fun _ _ w => (Raise OSError, w);
     gethostbyaddr_nul := ltac:(intros addr w H; unfold checked; simpl fst;
                                rewrite H; reflexivity) |}.

(** * Properties *)

(** ** Splitting and joining *)

Lemma split_not_nil (sep : ascii) (s : string) : Py.split sep s <> [].
Proof.
  induction s as [|c r IH]; simpl; [discriminate|].
  destruct (Ascii.eqb c sep); [discriminate|].
  destruct (Py.split sep r); [contradiction|discriminate].
Qed.

Lemma join_cons (sep x : string) (y : string) (l : list string) :
  Py.join sep (x :: y :: l) = x ++ sep ++ Py.join sep (y :: l).
Proof. reflexivity. Qed.

(** Joining the fields of a string with the separator gives the string back. *)
Lemma join_split (sep : ascii) (s : string) :
  Py.join (String sep EmptyString) (Py.split sep s) = s.
Proof.
  induction s as [|c r IH]; [reflexivity|].
  simpl Py.split. destruct (Ascii.eqb c sep) eqn:E.
  - apply Ascii.eqb_eq in E. subst c.
    pose proof (split_not_nil sep r) as Hne.
    destruct (Py.split sep r) as [|f fs]; [contradiction|].
    rewrite join_cons, IH. reflexivity.
  - pose proof (split_not_nil sep r) as Hne.
    destruct (Py.split sep r) as [|f fs]; [contradiction|].
    destruct fs as [|g gs].
    + simpl in *. now rewrite IH.
    + rewrite join_cons. rewrite join_cons in IH. rewrite <- IH. reflexivity.
Qed.

Lemma split_free (sep : ascii) (f : string) :
  occurs sep f = false -> Py.split sep f = [f].
Proof.
  induction f as [|c r IH]; simpl; [reflexivity|].
  intros H. apply orb_false_iff in H as [Hc Hr].
  rewrite Hc, (IH Hr). reflexivity.
Qed.

Lemma split_field (sep : ascii) (f r : string) :
  occurs sep f = false ->
  Py.split sep (f ++ String sep r) = f :: Py.split sep r.
Proof.
  induction f as [|c f IH]; simpl.
  - intros _. now rewrite Ascii.eqb_refl.
  - intros H. apply orb_false_iff in H as [Hc Hr].
    rewrite Hc, (IH Hr). reflexivity.
Qed.

(** ** Integer ranges *)

Lemma range_In (lo hi x : Z) : In x (Py.range lo hi) <-> lo <= x < hi.
Proof.
  unfold Py.range. rewrite in_map_iff. split.
  - intros [i [<- Hi]]. apply in_seq in Hi. lia.
  - intros H. exists (Z.to_nat (x - lo)). split; [lia|].
    apply in_seq. lia.
Qed.

Lemma range_length (lo hi : Z) : List.length (Py.range lo hi) = Z.to_nat (hi - lo).
Proof. unfold Py.range. now rewrite length_map, length_seq. Qed.

Lemma ascending_shifted_seq (lo : Z) (n start : nat) :
  ascending (map (fun i => lo + Z.of_nat i) (seq start n)) = true.
Proof.
  revert start. induction n as [|n IH]; intros start; [reflexivity|].
  destruct n as [|n]; [reflexivity|].
  specialize (IH (S start)). simpl in *. rewrite IH.
  rewrite andb_true_r. apply Z.ltb_lt. lia.
Qed.

Lemma range_ascending (lo hi : Z) : ascending (Py.range lo hi) = true.
Proof. apply ascending_shifted_seq. Qed.

(** ** Octets and their decimal form *)

Lemma res_eqb_eq (r : res Z) (k : Z) : res_eqb r k = true -> r = Ret k.
Proof.
  destruct r as [v|e]; simpl; [|discriminate].
  intros H. apply Z.eqb_eq in H. now subst.
Qed.

Lemma octets_form : forallb octet_form_ok octets = true.
Proof. vm_compute. reflexivity. Qed.

Lemma octet_form (k : Z) : 0 <= k <= 255 -> octet_form_ok k = true.
Proof.
  intros H. pose proof octets_form as F.
  rewrite forallb_forall in F. apply F. apply range_In. lia.
Qed.

Lemma int_str_octet (k : Z) : 0 <= k <= 255 -> Py.int (Py.str k) = Ret k.
Proof.
  intros H. apply octet_form in H. unfold octet_form_ok in H.
  apply andb_true_iff in H as [H _]. apply andb_true_iff in H as [H _].
  now apply res_eqb_eq.
Qed.

Lemma str_octet_digits (k : Z) : 0 <= k <= 255 -> all_digits (Py.str k) = true.
Proof.
  intros H. apply octet_form in H. unfold octet_form_ok in H.
  apply andb_true_iff in H as [H _]. now apply andb_true_iff in H as [_ H].
Qed.

Lemma str_octet_literal (k : Z) : 0 <= k <= 255 -> octet_literal (Py.str k) = true.
Proof.
  intros H. apply octet_form in H. unfold octet_form_ok in H.
  now apply andb_true_iff in H as [_ H].
Qed.

Lemma digit_not_dot (c : ascii) : Py.is_digit c = true -> Ascii.eqb c dot = false.
Proof.
  intros H. destruct (Ascii.eqb c dot) eqn:E; [|reflexivity].
  apply Ascii.eqb_eq in E. subst c. discriminate H.
Qed.

Lemma digits_no_dot (s : string) : all_digits s = true -> occurs dot s = false.
Proof.
  induction s as [|c r IH]; simpl; [reflexivity|].
  intros H. apply andb_true_iff in H as [Hc Hr].
  now rewrite (digit_not_dot c Hc), (IH Hr).
Qed.

(** ** Packing and unpacking octets *)

Lemma octet_at_range (n s : Z) : 0 <= octet_at n s <= 255.
Proof.
  unfold octet_at.
  rewrite (Z.land_ones (Z.shiftr n s) 8 ltac:(lia) : Z.land _ 255 = _).
  change (2 ^ 8) with 256.
  pose proof (Z.mod_pos_bound (Z.shiftr n s) 256). lia.
Qed.

Lemma octet_at_div (n s : Z) : 0 <= s -> octet_at n s = (n / 2 ^ s) mod 256.
Proof.
  intros H. unfold octet_at.
  rewrite (Z.land_ones (Z.shiftr n s) 8 ltac:(lia) : Z.land _ 255 = _).
  rewrite Z.shiftr_div_pow2 by lia. reflexivity.
Qed.

(** Bits that do not overlap add up. *)
Lemma lor_disjoint (x y : Z) : Z.land x y = 0 -> Z.lor x y = x + y.
Proof. intros H. pose proof (Z.add_lor_land x y). lia. Qed.

Lemma land_high_low (x y k : Z) :
  0 <= k -> 0 <= y < 2 ^ k -> Z.land (x * 2 ^ k) y = 0.
Proof.
  intros Hk Hy. apply Z.bits_inj'. intros i Hi.
  rewrite Z.land_spec, Z.bits_0.
  destruct (Z.ltb_spec i k) as [Hlt|Hge].
  - rewrite Z.mul_pow2_bits_low by lia. reflexivity.
  - rewrite <- (Z.mod_small y (2 ^ k)) by lia.
    rewrite Z.mod_pow2_bits_high by lia. apply andb_false_r.
Qed.

Lemma pack_sum (a b c d : Z) :
  0 <= a -> 0 <= b <= 255 -> 0 <= c <= 255 -> 0 <= d <= 255 ->
  pack a b c d = a * 2 ^ 24 + b * 2 ^ 16 + c * 2 ^ 8 + d.
Proof.
  intros Ha Hb Hc Hd. unfold pack.
  rewrite !Z.shiftl_mul_pow2 by lia.
  assert (E1 : Z.lor (a * 2 ^ 24) (b * 2 ^ 16) = (a * 2 ^ 8 + b) * 2 ^ 16).
  { replace (a * 2 ^ 24) with ((a * 2 ^ 8) * 2 ^ 16) by lia.
    rewrite <- Z.shiftl_mul_pow2, <- (Z.shiftl_mul_pow2 b), <- Z.shiftl_lor by lia.
    rewrite Z.shiftl_mul_pow2 by lia.
    rewrite lor_disjoint by (apply land_high_low; lia). reflexivity. }
  rewrite E1.
  assert (E2 : Z.lor ((a * 2 ^ 8 + b) * 2 ^ 16) (c * 2 ^ 8)
               = ((a * 2 ^ 8 + b) * 2 ^ 8 + c) * 2 ^ 8).
  { replace ((a * 2 ^ 8 + b) * 2 ^ 16) with (((a * 2 ^ 8 + b) * 2 ^ 8) * 2 ^ 8) by lia.
    rewrite <- Z.shiftl_mul_pow2, <- (Z.shiftl_mul_pow2 c), <- Z.shiftl_lor by lia.
    rewrite Z.shiftl_mul_pow2 by lia.
    rewrite lor_disjoint by (apply land_high_low; lia). reflexivity. }
  rewrite E2.
  rewrite lor_disjoint by (apply land_high_low; lia). lia.
Qed.

Lemma pack_range (a b c d : Z) :
  0 <= a <= 255 -> 0 <= b <= 255 -> 0 <= c <= 255 -> 0 <= d <= 255 ->
  0 <= pack a b c d < 2 ^ 32.
Proof. intros. rewrite pack_sum by lia. lia. Qed.

(** The octets of a packed address are the octets that were packed. *)
Lemma octet_at_pack (a b c d : Z) :
  0 <= a <= 255 -> 0 <= b <= 255 -> 0 <= c <= 255 -> 0 <= d <= 255 ->
  octet_at (pack a b c d) 24 = a /\ octet_at (pack a b c d) 16 = b /\
  octet_at (pack a b c d) 8 = c /\ octet_at (pack a b c d) 0 = d.
Proof.
  intros Ha Hb Hc Hd. rewrite !octet_at_div by lia.
  rewrite pack_sum by lia.
  change (2 ^ 24) with 16777216. change (2 ^ 16) with 65536.
  change (2 ^ 8) with 256. change (2 ^ 0) with 1.
  repeat split; Z.div_mod_to_equations; lia.
Qed.

(** A 32-bit value is the packing of its four octets. *)
Lemma pack_octets (n : Z) :
  0 <= n < 2 ^ 32 ->
  pack (octet_at n 24) (octet_at n 16) (octet_at n 8) (octet_at n 0) = n.
Proof.
  intros Hn.
  rewrite pack_sum by (first [apply octet_at_range | apply (octet_at_range n 24)]).
  rewrite !octet_at_div by lia.
  change (2 ^ 32) with 4294967296 in Hn.
  change (2 ^ 24) with 16777216. change (2 ^ 16) with 65536.
  change (2 ^ 8) with 256. change (2 ^ 0) with 1.
  Z.div_mod_to_equations. lia.
Qed.

Lemma intToIP_octets (n : Z) :
  intToIP n =
  Py.str (octet_at n 24) ++ "." ++ Py.str (octet_at n 16) ++ "." ++
  Py.str (octet_at n 8) ++ "." ++ Py.str (octet_at n 0).
Proof. reflexivity. Qed.

Lemma split_dotted (a b c d : string) :
  all_digits a = true -> all_digits b = true -> all_digits c = true ->
  all_digits d = true ->
  Py.split dot (a ++ "." ++ b ++ "." ++ c ++ "." ++ d) = [a; b; c; d].
Proof.
  intros Ha Hb Hc Hd.
  change "." with (String dot EmptyString). simpl append.
  rewrite !split_field by now apply digits_no_dot.
  rewrite split_free by now apply digits_no_dot. reflexivity.
Qed.

Lemma IPToInt_fields (s a b c d : string) (ka kb kc kd : Z) :
  Py.split dot s = [a; b; c; d] ->
  Py.int a = Ret ka -> Py.int b = Ret kb -> Py.int c = Ret kc -> Py.int d = Ret kd ->
  IPToInt s = Ret (pack ka kb kc kd).
Proof.
  intros Hs Ha Hb Hc Hd. unfold IPToInt. rewrite Hs, Ha, Hb, Hc, Hd. reflexivity.
Qed.

(** ** Canonical dotted-decimal strings *)

Lemma is_digit_In (c : ascii) : Py.is_digit c = true -> In c digit_chars.
Proof.
  destruct c as [[] [] [] [] [] [] [] []]; vm_compute; intros H;
    first [discriminate H | intuition].
Qed.

Lemma literals_1 :
  forallb (fun a => implb (octet_literal (String a EmptyString))
                          (is_octet_form (String a EmptyString))) digit_chars = true.
Proof. vm_compute. reflexivity. Qed.

Lemma literals_2 :
  forallb (fun a => forallb (fun b =>
    implb (octet_literal (String a (String b EmptyString)))
          (is_octet_form (String a (String b EmptyString)))) digit_chars) digit_chars = true.
Proof. vm_compute. reflexivity. Qed.

Lemma literals_3 :
  forallb (fun a => forallb (fun b => forallb (fun c =>
    implb (octet_literal (String a (String b (String c EmptyString))))
          (is_octet_form (String a (String b (String c EmptyString)))))
    digit_chars) digit_chars) digit_chars = true.
Proof. vm_compute. reflexivity. Qed.

Lemma octet_literal_form (f : string) : octet_literal f = true -> is_octet_form f = true.
Proof.
  intros H.
  destruct f as [|a [|b [|c [|x r]]]]; try discriminate H.
  - pose proof (is_digit_In a H) as Ia.
    pose proof literals_1 as L. rewrite forallb_forall in L.
    specialize (L a Ia). rewrite H in L. exact L.
  - assert (Da : Py.is_digit a = true) by (simpl in H; now destruct (Py.is_digit a)).
    assert (Db : Py.is_digit b = true)
      by (simpl in H; rewrite Da in H; now destruct (Py.is_digit b)).
    pose proof literals_2 as L. rewrite forallb_forall in L.
    specialize (L a (is_digit_In a Da)). rewrite forallb_forall in L.
    specialize (L b (is_digit_In b Db)). rewrite H in L. exact L.
  - assert (Da : Py.is_digit a = true) by (simpl in H; now destruct (Py.is_digit a)).
    assert (Db : Py.is_digit b = true)
      by (simpl in H; rewrite Da in H; now destruct (Py.is_digit b)).
    assert (Dc : Py.is_digit c = true)
      by (simpl in H; rewrite Da, Db in H; now destruct (Py.is_digit c)).
    pose proof literals_3 as L. rewrite forallb_forall in L.
    specialize (L a (is_digit_In a Da)). rewrite forallb_forall in L.
    specialize (L b (is_digit_In b Db)). rewrite forallb_forall in L.
    specialize (L c (is_digit_In c Dc)). rewrite H in L. exact L.
Qed.

(** A canonical octet is the decimal form of the number [int] reads in it. *)
Lemma octet_literal_canonical (f : string) :
  octet_literal f = true ->
  exists k, 0 <= k <= 255 /\ Py.int f = Ret k /\ Py.str k = f.
Proof.
  intros H. apply octet_literal_form in H. unfold is_octet_form in H.
  apply existsb_exists in H as [g [Hin Heq]].
  apply String.eqb_eq in Heq. subst g.
  apply in_map_iff in Hin as [k [Hk Hin]]. apply range_In in Hin.
  exists k. split; [lia|]. split; [|exact Hk].
  rewrite <- Hk. apply int_str_octet. lia.
Qed.

(** C5. For every valid dotted-decimal IPv4 string [s] (four canonical octets,
    each in 0..255, nothing else), [IPToInt s] returns a 32-bit value and
    [intToIP] of that value is [s] again. *)
Theorem intToIP_IPToInt (s : string) :
  valid_ip s = true ->
  exists n, IPToInt s = Ret n /\ 0 <= n < 2 ^ 32 /\ intToIP n = s.
Proof.
  unfold valid_ip. intros H.
  destruct (Py.split dot s) as [|a [|b [|c [|d [|x r]]]]] eqn:Hs; try discriminate H.
  apply andb_true_iff in H as [H Hd]. apply andb_true_iff in H as [H Hc].
  apply andb_true_iff in H as [Ha Hb].
  apply octet_literal_canonical in Ha as [ka [Ra [Ia Sa]]].
  apply octet_literal_canonical in Hb as [kb [Rb [Ib Sb]]].
  apply octet_literal_canonical in Hc as [kc [Rc [Ic Sc]]].
  apply octet_literal_canonical in Hd as [kd [Rd [Id Sd]]].
  exists (pack ka kb kc kd).
  split; [now apply (IPToInt_fields s a b c d)|].
  split; [now apply pack_range|].
  rewrite intToIP_octets.
  destruct (octet_at_pack ka kb kc kd Ra Rb Rc Rd) as [E24 [E16 [E8 E0]]].
  rewrite E24, E16, E8, E0, Sa, Sb, Sc, Sd.
  rewrite <- (join_split dot s), Hs. reflexivity.
Qed.

Lemma intToIP_IPToInt_witness :
  valid_ip "192.168.1.1" = true /\
  exists n, IPToInt "192.168.1.1" = Ret n /\ 0 <= n < 2 ^ 32 /\ intToIP n = "192.168.1.1".
Proof.
  split; [reflexivity|]. apply (intToIP_IPToInt "192.168.1.1"). reflexivity.
Defined.

(** The canonical form matters: [IPToInt] also reads an octet written with a
    leading zero, and [intToIP] writes it without. *)
Example leading_zero_not_restored :
  valid_ip "01.2.3.4" = false /\
  IPToInt "01.2.3.4" = Ret 16909060 /\ intToIP 16909060 = "1.2.3.4".
Proof. repeat split; reflexivity. Qed.

(** C10. For every [n] with [0 <= n < 2^32], [IPToInt (intToIP n)] returns
    [n]; so [intToIP] is injective on 32-bit values. *)
Theorem IPToInt_intToIP (n : Z) :
  0 <= n < 2 ^ 32 ->
  IPToInt (intToIP n) = Ret n /\
  (forall m, 0 <= m < 2 ^ 32 -> intToIP m = intToIP n -> m = n).
Proof.
  assert (R : forall k, 0 <= k < 2 ^ 32 -> IPToInt (intToIP k) = Ret k).
  { intros k Hk. rewrite <- (pack_octets k Hk) at 2.
    apply (IPToInt_fields _ (Py.str (octet_at k 24)) (Py.str (octet_at k 16))
                            (Py.str (octet_at k 8)) (Py.str (octet_at k 0))).
    - rewrite intToIP_octets.
      apply split_dotted; apply str_octet_digits, octet_at_range.
    - apply int_str_octet, octet_at_range.
    - apply int_str_octet, octet_at_range.
    - apply int_str_octet, octet_at_range.
    - apply int_str_octet, octet_at_range. }
  intros Hn. split; [now apply R|].
  intros m Hm E. pose proof (R m Hm) as Rm. rewrite E, (R n Hn) in Rm.
  now injection Rm.
Qed.

Lemma IPToInt_intToIP_witness :
  IPToInt (intToIP 3232235777) = Ret 3232235777 /\
  (forall m, 0 <= m < 2 ^ 32 -> intToIP m = intToIP 3232235777 -> m = 3232235777).
Proof. apply (IPToInt_intToIP 3232235777). split; [lia|reflexivity]. Defined.

(** ** CIDR blocks *)

Lemma masks_ok : forallb mask_ok prefix_lengths = true.
Proof. vm_compute. reflexivity. Qed.

Lemma mask_facts (p : Z) :
  0 <= p <= 32 ->
  code_mask p = mask_of p /\
  code_host_bits p = Z.lxor (mask_of p) 4294967295 /\
  code_host_bits p = 2 ^ (32 - p) - 1 /\
  Z.land (mask_of p) (code_host_bits p) = 0 /\
  0 <= mask_of p.
Proof.
  intros H. pose proof masks_ok as F. rewrite forallb_forall in F.
  assert (I : In p prefix_lengths) by (apply range_In; lia).
  specialize (F p I). unfold mask_ok in F.
  repeat (apply andb_true_iff in F as [F ?]).
  repeat split; first [now apply Z.eqb_eq | now apply Z.leb_le].
Qed.

(** The broadcast address ends the block of [2^(32-p)] addresses that the
    network address starts. *)
Lemma block_extent (addr p : Z) :
  0 <= p <= 32 ->
  0 <= network_of addr p /\
  broadcast_of addr p = network_of addr p + 2 ^ (32 - p) - 1.
Proof.
  intros Hp. destruct (mask_facts p Hp) as [_ [Ex [Eh [Ed Hm]]]].
  unfold broadcast_of, network_of. split.
  - apply Z.land_nonneg. now right.
  - rewrite <- Ex. rewrite lor_disjoint.
    + rewrite Eh. lia.
    + rewrite <- Z.land_assoc, Ed. apply Z.land_0_r.
Qed.

(** [cidrToIPS] once it has read its five numbers: the shift, then the
    block. *)
Lemma cidrToIPS_read (cidr : string) (a b c d p : Z) :
  parse_cidr cidr = Some (a, b, c, d, p) ->
  cidrToIPS cidr =
  (shifted <- Py.lshift 4294967295 (32 - p) ;;
   let mask := Z.land shifted 4294967295 in
   let network := Z.land (pack a b c d) mask in
   let broadcast := Z.lor network (Z.land (Z.lnot mask) 4294967295) in
   Ret (map intToIP (Py.range network (broadcast + 1))))%res.
Proof.
  unfold parse_cidr, cidrToIPS, IPToInt. intros H.
  destruct (Py.split slash cidr) as [|addr [|prefix [|x r]]]; try discriminate H.
  destruct (Py.split dot addr) as [|fa [|fb [|fc [|fd [|y t]]]]]; try discriminate H.
  destruct (Py.int fa) as [a'|]; [|discriminate H].
  destruct (Py.int fb) as [b'|]; [|discriminate H].
  destruct (Py.int fc) as [c'|]; [|discriminate H].
  destruct (Py.int fd) as [d'|]; [|discriminate H].
  destruct (Py.int prefix) as [p'|]; [|discriminate H].
  injection H as -> -> -> -> ->. reflexivity.
Qed.

(** The shift of the source, of [0xFFFFFFFF]: refused below 0 and above
    [max_shift]. *)
Lemma lshift_ones (n : Z) :
  Py.lshift 4294967295 n =
  if n <? 0 then Raise ValueError
  else if max_shift <? n then Raise OverflowError
  else Ret (Z.shiftl 4294967295 n).
Proof.
  unfold Py.lshift, max_shift.
  change (Py.long_digits 4294967295) with 2.
  change Py.max_long_digits with 2305843009213693945.
  change (4294967295 =? 0) with false. cbv iota.
  destruct (n <? 0); [reflexivity|].
  destruct (Z.eqb_spec (n mod 30) 0) as [E|E]; cbv iota.
  - destruct (Z.ltb_spec 2305843009213693945 (2 + n / 30 + 0)) as [H|H];
      destruct (Z.ltb_spec (30 * (2305843009213693945 - 2)) n) as [G|G];
      try reflexivity; exfalso; Z.div_mod_to_equations; lia.
  - destruct (Z.ltb_spec 2305843009213693945 (2 + n / 30 + 1)) as [H|H];
      destruct (Z.ltb_spec (30 * (2305843009213693945 - 2)) n) as [G|G];
      try reflexivity; exfalso; Z.div_mod_to_equations; lia.
Qed.

(** What [cidrToIPS] returns when the shift is made. *)
Lemma cidrToIPS_shifted (cidr : string) (a b c d p : Z) :
  parse_cidr cidr = Some (a, b, c, d, p) ->
  0 <= 32 - p <= max_shift ->
  cidrToIPS cidr =
  Ret (map intToIP
         (Py.range (Z.land (pack a b c d) (code_mask p))
                   (Z.lor (Z.land (pack a b c d) (code_mask p)) (code_host_bits p) + 1))).
Proof.
  intros H Hp. rewrite (cidrToIPS_read cidr a b c d p H), lshift_ones.
  destruct (Z.ltb_spec (32 - p) 0) as [Hneg|_]; [lia|].
  destruct (Z.ltb_spec max_shift (32 - p)) as [Hbig|_]; [lia|reflexivity].
Qed.

(** What [cidrToIPS] returns for a prefix length from 0 to 32. *)
Lemma cidrToIPS_parsed (cidr : string) (a b c d p : Z) :
  parse_cidr cidr = Some (a, b, c, d, p) ->
  0 <= p <= 32 ->
  cidrToIPS cidr =
  Ret (map intToIP
         (Py.range (Z.land (pack a b c d) (code_mask p))
                   (Z.lor (Z.land (pack a b c d) (code_mask p)) (code_host_bits p) + 1))).
Proof.
  intros H Hp. apply cidrToIPS_shifted; [exact H|].
  unfold max_shift. change Py.max_long_digits with 2305843009213693945. lia.
Qed.

(** A prefix length above 32 makes the shift count negative. *)
Lemma cidrToIPS_prefix_too_long (cidr : string) (a b c d p : Z) :
  parse_cidr cidr = Some (a, b, c, d, p) -> 32 < p -> cidrToIPS cidr = Raise ValueError.
Proof.
  intros H Hp. rewrite (cidrToIPS_read cidr a b c d p H), lshift_ones.
  destruct (Z.ltb_spec (32 - p) 0) as [_|Hge]; [reflexivity|lia].
Qed.

(** A prefix length far below 0 makes the shift count too large. *)
Lemma cidrToIPS_prefix_too_short (cidr : string) (a b c d p : Z) :
  parse_cidr cidr = Some (a, b, c, d, p) -> max_shift < 32 - p ->
  cidrToIPS cidr = Raise OverflowError.
Proof.
  intros H Hp. rewrite (cidrToIPS_read cidr a b c d p H), lshift_ones.
  assert (0 <= max_shift) by (unfold max_shift; now vm_compute).
  destruct (Z.ltb_spec (32 - p) 0) as [Hneg|_]; [lia|].
  destruct (Z.ltb_spec max_shift (32 - p)) as [_|Hle]; [reflexivity|lia].
Qed.

Lemma int_raises (s : string) (e : exn) : Py.int s = Raise e -> e = ValueError.
Proof.
  unfold Py.int.
  destruct (match Py.lstrip s with
            | String c r =>
                if Py.code c =? 45 then (true, r)
                else if Py.code c =? 43 then (false, r) else (false, Py.lstrip s)
            | EmptyString => (false, Py.lstrip s)
            end) as [negative s2].
  destruct (Py.span_literal s2) as [body rest].
  destruct (_ && _ && _); [discriminate|].
  intros H. now injection H.
Qed.

Lemma cidrToIPS_unparsed (cidr : string) :
  parse_cidr cidr = None -> cidrToIPS cidr = Raise ValueError.
Proof.
  unfold parse_cidr, cidrToIPS, IPToInt. intros H.
  destruct (Py.split slash cidr) as [|addr [|prefix [|x r]]]; try reflexivity.
  destruct (Py.int prefix) as [p|e] eqn:Ep;
    [|now rewrite (int_raises _ _ Ep)].
  cbv beta iota delta [res_bind].
  destruct (Py.split dot addr) as [|fa [|fb [|fc [|fd [|y t]]]]]; try reflexivity.
  destruct (Py.int fa) as [a|e] eqn:Ea; [|now rewrite (int_raises _ _ Ea)].
  destruct (Py.int fb) as [b|e] eqn:Eb; [|now rewrite (int_raises _ _ Eb)].
  destruct (Py.int fc) as [c|e] eqn:Ec; [|now rewrite (int_raises _ _ Ec)].
  destruct (Py.int fd) as [d|e] eqn:Ed; [|now rewrite (int_raises _ _ Ed)].
  discriminate H.
Qed.

(** Whatever [cidrToIPS] returns, [intToIP] wrote. *)
Lemma cidrToIPS_addresses (cidr : string) (l : list string) :
  cidrToIPS cidr = Ret l -> exists zs, l = map intToIP zs.
Proof.
  intros H.
  destruct (parse_cidr cidr) as [[[[[a b] c] d] p]|] eqn:Hparse.
  - rewrite (cidrToIPS_read cidr a b c d p Hparse) in H.
    destruct (Py.lshift 4294967295 (32 - p)) as [shifted|e]; [|discriminate H].
    injection H as <-. eexists. reflexivity.
  - rewrite (cidrToIPS_unparsed cidr Hparse) in H. discriminate H.
Qed.

(** Every integer is written as a valid address, its low 32 bits. *)
Lemma intToIP_valid (n : Z) : valid_ip (intToIP n) = true.
Proof.
  unfold valid_ip. rewrite intToIP_octets.
  rewrite split_dotted by apply str_octet_digits, octet_at_range.
  rewrite !str_octet_literal by apply octet_at_range. reflexivity.
Qed.

(** X1. Every element of a list [cidrToIPS] returns is a valid dotted-decimal
    address: four canonical octets in 0..255 between three dots. *)
Theorem cidrToIPS_valid (cidr : string) (l : list string) (x : string) :
  cidrToIPS cidr = Ret l -> In x l -> valid_ip x = true.
Proof.
  intros H Hin. destruct (cidrToIPS_addresses cidr l H) as [zs ->].
  apply in_map_iff in Hin as [z [<- _]]. apply intToIP_valid.
Qed.

Lemma cidrToIPS_valid_witness : valid_ip "10.0.0.2" = true.
Proof.
  apply (cidrToIPS_valid "10.0.0.0/30" ["10.0.0.0"; "10.0.0.1"; "10.0.0.2"; "10.0.0.3"]).
  - reflexivity.
  - simpl. auto.
Defined.

(** C4. For every CIDR string whose octets are in 0..255 and whose prefix
    length [p] is in 0..32, [cidrToIPS] returns the dotted-decimal strings of
    the integers from the network address to the broadcast address, both
    included, in ascending order, where the network address is [ip & mask],
    the broadcast address [network | ~mask], and the mask has the top [p] bits
    set; for [p = 32] that is the one address [ip]. In particular
    ["10.0.0.0/30"] expands to its four addresses. *)
Theorem cidrToIPS_block :
  (forall (cidr : string) (a b c d p : Z),
      parse_cidr cidr = Some (a, b, c, d, p) ->
      0 <= a <= 255 -> 0 <= b <= 255 -> 0 <= c <= 255 -> 0 <= d <= 255 ->
      0 <= p <= 32 ->
      exists zs : list Z,
        cidrToIPS cidr = Ret (map intToIP zs) /\
        ascending zs = true /\
        (forall z, In z zs <->
                   network_of (pack a b c d) p <= z <= broadcast_of (pack a b c d) p) /\
        Z.of_nat (List.length zs) = 2 ^ (32 - p) /\
        (p = 32 -> zs = [pack a b c d])) /\
  cidrToIPS "10.0.0.0/30" = Ret ["10.0.0.0"; "10.0.0.1"; "10.0.0.2"; "10.0.0.3"].
Proof.
  split; [|reflexivity].
  intros cidr a b c d p Hparse Ha Hb Hc Hd Hp.
  destruct (mask_facts p Hp) as [Em [Ex [Eh [Ed Hm]]]].
  destruct (block_extent (pack a b c d) p Hp) as [Hnet Hbc].
  exists (Py.range (network_of (pack a b c d) p) (broadcast_of (pack a b c d) p + 1)).
  split; [|split; [|split; [|split]]].
  - rewrite (cidrToIPS_parsed cidr a b c d p Hparse) by lia.
    unfold network_of, broadcast_of, network_of. now rewrite Em, Ex.
  - apply range_ascending.
  - intros z. rewrite range_In. lia.
  - rewrite range_length, Hbc.
    assert (0 < 2 ^ (32 - p)) by (apply Z.pow_pos_nonneg; lia). lia.
  - intros ->. rewrite Hbc.
    assert (E : network_of (pack a b c d) 32 = pack a b c d).
    { unfold network_of. change (mask_of 32) with (Z.ones 32).
      rewrite Z.land_ones by lia. apply Z.mod_small. now apply pack_range. }
    rewrite E. unfold Py.range.
    replace (pack a b c d + 2 ^ (32 - 32) - 1 + 1 - pack a b c d) with 1 by reflexivity || lia.
    simpl. now rewrite Z.add_0_r.
Qed.

Lemma cidrToIPS_block_witness :
  exists zs : list Z,
    cidrToIPS "192.168.1.0/24" = Ret (map intToIP zs) /\
    ascending zs = true /\
    (forall z, In z zs <->
               network_of (pack 192 168 1 0) 24 <= z <= broadcast_of (pack 192 168 1 0) 24) /\
    Z.of_nat (List.length zs) = 2 ^ (32 - 24) /\
    (24 = 32 -> zs = [pack 192 168 1 0]).
Proof.
  apply (proj1 cidrToIPS_block "192.168.1.0/24" 192 168 1 0 24);
    first [reflexivity | lia].
Defined.

(** C6, as stated, fails: ["300.0.0.1/24"] has an octet out of range, and
    [cidrToIPS] returns the 256 addresses from 44.0.0.0 to 44.0.0.255 for
    it. *)
Lemma cidrToIPS_accepts_octet_300 :
  well_formed_cidr "300.0.0.1/24" = false /\
  cidrToIPS "300.0.0.1/24" = Ret (map intToIP (Py.range 738197504 738197760)) /\
  intToIP 738197504 = "44.0.0.0" /\ intToIP 738197759 = "44.0.0.255".
Proof. repeat split; vm_compute; reflexivity. Qed.

(** The three ends of [cidrToIPS]. *)
Lemma cidrToIPS_cases (cidr : string) :
  match parse_cidr cidr with
  | None => cidrToIPS cidr = Raise ValueError
  | Some (_, _, _, _, p) =>
      (32 < p /\ cidrToIPS cidr = Raise ValueError) \/
      (max_shift < 32 - p /\ cidrToIPS cidr = Raise OverflowError) \/
      (0 <= 32 - p <= max_shift /\ exists l, cidrToIPS cidr = Ret l)
  end.
Proof.
  destruct (parse_cidr cidr) as [[[[[a b] c] d] p]|] eqn:Hparse;
    [|now apply cidrToIPS_unparsed].
  destruct (Z.lt_ge_cases 32 p) as [Hlong|Hle];
    [left; split; [exact Hlong | now apply (cidrToIPS_prefix_too_long cidr a b c d p)]|].
  right. destruct (Z.lt_ge_cases max_shift (32 - p)) as [Hshort|Hfit].
  - left. split; [exact Hshort | now apply (cidrToIPS_prefix_too_short cidr a b c d p)].
  - right. split; [lia|]. eexists. apply (cidrToIPS_shifted cidr a b c d p Hparse). lia.
Qed.

(** C6, amended. [cidrToIPS] fails with a [ValueError] exactly when its
    argument has not exactly one slash, or the address part has not exactly
    three dots, or a field is not an [int] literal, or the prefix length is
    more than 32. It fails with an [OverflowError] exactly when the prefix
    length is so far below 0 that the shift count, 32 minus the prefix
    length, is above [max_shift]. It fails with no other exception, the
    exhaustion of memory apart. The octets are not checked against 0..255:
    with a prefix length from 0 to 32, [cidrToIPS] returns a list whatever
    the octets are. *)
Theorem cidrToIPS_failure (cidr : string) :
  (cidrToIPS cidr = Raise ValueError <->
   match parse_cidr cidr with
   | Some (_, _, _, _, p) => 32 < p
   | None => True
   end) /\
  (cidrToIPS cidr = Raise OverflowError <->
   match parse_cidr cidr with
   | Some (_, _, _, _, p) => max_shift < 32 - p
   | None => False
   end) /\
  (forall e, cidrToIPS cidr = Raise e -> e = ValueError \/ e = OverflowError) /\
  (forall a b c d p,
      parse_cidr cidr = Some (a, b, c, d, p) -> 0 <= p <= 32 ->
      exists l, cidrToIPS cidr = Ret l).
Proof.
  assert (Hmax : 32 <= max_shift) by (unfold max_shift; now vm_compute).
  pose proof (cidrToIPS_cases cidr) as Cases.
  destruct (parse_cidr cidr) as [[[[[a b] c] d] p]|] eqn:Hparse.
  - split; [|split; [|split]].
    + split.
      * intros H. destruct Cases as [[Hp _] | [[_ E] | [_ [l E]]]];
          [exact Hp | rewrite E in H; discriminate H | rewrite E in H; discriminate H].
      * intros Hp. destruct Cases as [[_ E] | [[Hq _] | [Hq _]]]; [exact E | lia | lia].
    + split.
      * intros H. destruct Cases as [[_ E] | [[Hp _] | [_ [l E]]]];
          [rewrite E in H; discriminate H | exact Hp | rewrite E in H; discriminate H].
      * intros Hp. destruct Cases as [[Hq _] | [[_ E] | [Hq _]]]; [lia | exact E | lia].
    + intros e H. destruct Cases as [[_ E] | [[_ E] | [_ [l E]]]]; rewrite E in H;
        [left; now injection H | right; now injection H | discriminate H].
    + intros a' b' c' d' p' H Hp. injection H as <- <- <- <- <-.
      destruct Cases as [[Hq _] | [[Hq _] | [_ E]]]; [lia | lia | exact E].
  - split; [|split; [|split]].
    + split; [intros _; exact I | intros _; exact Cases].
    + split; [intros H; rewrite Cases in H; discriminate H | intros []].
    + intros e H. rewrite Cases in H. left. now injection H.
    + intros a b c d p H. discriminate H.
Qed.

Lemma cidrToIPS_failure_witness :
  cidrToIPS "10.0.0.0/33" = Raise ValueError /\
  cidrToIPS "10.0.0/24" = Raise ValueError /\
  cidrToIPS "0.0.0.0/-100000000000000000000" = Raise OverflowError /\
  exists l, cidrToIPS "300.0.0.1/24" = Ret l.
Proof.
  split; [|split; [|split]].
  - apply (proj1 (cidrToIPS_failure "10.0.0.0/33")). vm_compute. reflexivity.
  - apply (proj1 (cidrToIPS_failure "10.0.0/24")). exact I.
  - apply (proj1 (proj2 (cidrToIPS_failure "0.0.0.0/-100000000000000000000"))).
    vm_compute. reflexivity.
  - apply (proj2 (proj2 (proj2 (cidrToIPS_failure "300.0.0.1/24"))) 300 0 0 1 24).
    + reflexivity.
    + lia.
Defined.

(** The number of addresses of a block, whatever the octets. *)
Lemma cidrToIPS_length (cidr : string) (a b c d p : Z) :
  parse_cidr cidr = Some (a, b, c, d, p) -> 0 <= p <= 32 ->
  exists l, cidrToIPS cidr = Ret l /\ Z.of_nat (List.length l) = 2 ^ (32 - p).
Proof.
  intros Hparse Hp.
  destruct (mask_facts p Hp) as [Em [Ex [Eh [Ed Hm]]]].
  eexists. split; [apply (cidrToIPS_parsed cidr a b c d p Hparse); lia|].
  rewrite length_map, range_length.
  rewrite lor_disjoint by (rewrite Em, <- Z.land_assoc, Ed; apply Z.land_0_r).
  rewrite Eh. assert (0 < 2 ^ (32 - p)) by (apply Z.pow_pos_nonneg; lia). lia.
Qed.

(** ** The reverse lookup *)

Section Lookup.

Context {Sys : System}.

Lemma reverseDNS_run (addr : string) (w : World) :
  reverseDNS addr w =
  (dns_of addr (fst (gethostbyaddr addr w)), snd (gethostbyaddr addr w),
   [LookupCall addr; LookupRet (fst (gethostbyaddr addr w))]).
Proof.
  unfold reverseDNS, try_except, bind, call_gethostbyaddr, ret.
  destruct (gethostbyaddr addr w) as [r w1]. simpl fst. simpl snd.
  destruct r as [[[h al] ad]|e]; [reflexivity|].
  destruct e; reflexivity.
Qed.

Lemma dns_of_handled (addr : string) (r : res dns_answer) :
  lookup_handled r = true -> exists info, dns_of addr r = Ret info.
Proof.
  destruct r as [[[h al] ad]|e]; simpl.
  - intros _. eexists. reflexivity.
  - destruct e; intros H; try discriminate H; eexists; reflexivity.
Qed.

(** What [reverseDNS] makes of the lookup: when it raises [herror] (no PTR
    record), a dictionary with no hostname, no aliases, no addresses and the
    error text of a missing PTR record; when it raises [gaierror], the same
    with the error text of an invalid address; when it returns, a dictionary
    that holds what it returned and no error. These two error texts are the
    only ones. *)
Lemma reverseDNS_outcomes (addr : string) (w : World) :
  (fst (gethostbyaddr addr w) = Raise herror ->
   result_of (reverseDNS addr w) =
   Ret {| dns_ip := addr; hostname := None; aliases := []; addresses := [];
          error := Some "No PTR record found" |}) /\
  (fst (gethostbyaddr addr w) = Raise gaierror ->
   result_of (reverseDNS addr w) =
   Ret {| dns_ip := addr; hostname := None; aliases := []; addresses := [];
          error := Some "Invalid IP address" |}) /\
  (forall h al ad,
      fst (gethostbyaddr addr w) = Ret (h, al, ad) ->
      result_of (reverseDNS addr w) =
      Ret {| dns_ip := addr; hostname := Some h; aliases := al; addresses := ad;
             error := None |}) /\
  (forall info,
      result_of (reverseDNS addr w) = Ret info ->
      error info = None \/ error info = Some "No PTR record found" \/
      error info = Some "Invalid IP address").
Proof.
  rewrite reverseDNS_run. unfold result_of. simpl fst.
  repeat split.
  - intros ->. reflexivity.
  - intros ->. reflexivity.
  - intros h al ad ->. reflexivity.
  - intros info H.
    destruct (fst (gethostbyaddr addr w)) as [[[h al] ad]|e]; simpl in H.
    + injection H as <-. now left.
    + destruct e; try discriminate H; injection H as <-; simpl; auto.
Qed.

End Lookup.

(** C8, at the failing input. The socket module refuses the malformed
    address ["1..2"] with a [UnicodeError], a class [reverseDNS] has no
    handler for: the exception leaves [reverseDNS], and no dictionary with an
    error text is returned for this failure, as one is for the address the
    resolver refuses with a [gaierror]. *)
Lemma reverseDNS_lets_exceptions_through :
  result_of (@reverseDNS faulty_lab "1..2" tt) = Raise UnicodeError /\
  trace_of (@reverseDNS faulty_lab "1..2" tt) =
    [LookupCall "1..2"; LookupRet (Raise UnicodeError)] /\
  result_of (@reverseDNS lab "10.0.0.3" tt) =
    Ret {| dns_ip := "10.0.0.3"; hostname := None; aliases := []; addresses := [];
           error := Some "Invalid IP address" |}.
Proof. repeat split; reflexivity. Qed.

(** ** The ping command *)

Lemma all_chars_app (p : ascii -> bool) (s t : string) :
  all_chars p (s ++ t) = all_chars p s && all_chars p t.
Proof.
  induction s as [|c r IH]; simpl; [reflexivity|].
  now rewrite IH, andb_assoc.
Qed.

Lemma digits_address_chars (s : string) :
  all_digits s = true -> all_chars address_char s = true.
Proof.
  induction s as [|c r IH]; simpl; [reflexivity|].
  intros H. apply andb_true_iff in H as [Hc Hr].
  unfold address_char at 1. now rewrite Hc, (IH Hr).
Qed.

Lemma intToIP_chars (n : Z) : all_chars address_char (intToIP n) = true.
Proof.
  rewrite intToIP_octets. rewrite !all_chars_app.
  rewrite (digits_address_chars (Py.str (octet_at n 24)))
    by apply str_octet_digits, octet_at_range.
  rewrite (digits_address_chars (Py.str (octet_at n 16)))
    by apply str_octet_digits, octet_at_range.
  rewrite (digits_address_chars (Py.str (octet_at n 8)))
    by apply str_octet_digits, octet_at_range.
  rewrite (digits_address_chars (Py.str (octet_at n 0)))
    by apply str_octet_digits, octet_at_range.
  reflexivity.
Qed.

Lemma address_chars_exclude (c : ascii) (s : string) :
  address_char c = false -> all_chars address_char s = true -> occurs c s = false.
Proof.
  intros Hc. induction s as [|x r IH]; simpl; [reflexivity|].
  intros H. apply andb_true_iff in H as [Hx Hr]. rewrite (IH Hr), orb_false_r.
  destruct (Ascii.eqb x c) eqn:E; [|reflexivity].
  apply Ascii.eqb_eq in E. subst x. rewrite Hc in Hx. discriminate Hx.
Qed.

Lemma address_chars_no_semicolon (s : string) :
  all_chars address_char s = true -> occurs ";"%char s = false.
Proof. now apply address_chars_exclude. Qed.

Lemma occurs_app (c : ascii) (s t : string) :
  occurs c (s ++ t) = occurs c s || occurs c t.
Proof.
  induction s as [|x r IH]; simpl; [reflexivity|].
  now rewrite IH, orb_assoc.
Qed.

(** The command line has a NUL character exactly when the target has. *)
Lemma ping_command_nul (target : string) :
  occurs nul (ping_command target) = occurs nul target.
Proof.
  unfold ping_command. rewrite !occurs_app.
  change (occurs nul "ping -c 1 ") with false.
  change (occurs nul " > /dev/null 2>&1") with false.
  now rewrite orb_false_r.
Qed.

(** What [intToIP] writes has no NUL character, and makes one command. *)
Lemma intToIP_no_nul (n : Z) : occurs nul (intToIP n) = false.
Proof. apply address_chars_exclude; [reflexivity | apply intToIP_chars]. Qed.

Lemma ping_command_plain (n : Z) :
  shell_list (ping_command (intToIP n)) = [ping_command (intToIP n)].
Proof.
  unfold shell_list. apply split_free. unfold ping_command. rewrite !occurs_app.
  rewrite (address_chars_no_semicolon _ (intToIP_chars n)). reflexivity.
Qed.

Lemma cidrToIPS_no_nul (cidr : string) (l : list string) :
  cidrToIPS cidr = Ret l -> forallb no_nul l = true.
Proof.
  intros H. destruct (cidrToIPS_addresses cidr l H) as [zs ->].
  apply forallb_forall. intros x Hin. apply in_map_iff in Hin as [z [<- _]].
  unfold no_nul. now rewrite intToIP_no_nul.
Qed.

Section Ping.

Context {Sys : System}.

Lemma pingHost_run (target : string) (w : World) :
  pingHost target w =
  if occurs nul target
  then (Raise ValueError, w,
        [SystemCall (ping_command target); SystemRet (Raise ValueError)])
  else (Ret (fst (os_system (ping_command target) w)),
        snd (os_system (ping_command target) w),
        [SystemCall (ping_command target);
         SystemRet (Ret (fst (os_system (ping_command target) w)))]).
Proof.
  unfold pingHost, bind, call_os_system, ret. rewrite ping_command_nul.
  destruct (occurs nul target); [reflexivity|].
  destruct (os_system (ping_command target) w) as [st w1]. reflexivity.
Qed.

(** C9, amended. [pingHost] hands [os.system] one shell command line, the
    target written into it as it is, and returns the status of that command;
    a command line with a NUL character in it [os.system] refuses with a
    [ValueError] before any shell is started, and [pingHost] lets the
    exception through. For a target that [intToIP] wrote, so for every
    address of a list [cidrToIPS] returned, the text written into the command
    line is made of digits and dots, and the command line is one command,
    which is run. *)
Theorem pingHost_command (target : string) (w : World) :
  (occurs nul target = false ->
   trace_of (pingHost target w) =
     [SystemCall ("ping -c 1 " ++ target ++ " > /dev/null 2>&1");
      SystemRet (Ret (fst (os_system (ping_command target) w)))] /\
   result_of (pingHost target w) = Ret (fst (os_system (ping_command target) w))) /\
  (occurs nul target = true ->
   pingHost target w =
     (Raise ValueError, w,
      [SystemCall ("ping -c 1 " ++ target ++ " > /dev/null 2>&1");
       SystemRet (Raise ValueError)])) /\
  (forall n, target = intToIP n ->
             all_chars address_char target = true /\
             shell_list (ping_command target) = [ping_command target] /\
             result_of (pingHost target w) = Ret (fst (os_system (ping_command target) w))) /\
  (forall cidr l, cidrToIPS cidr = Ret l -> In target l ->
                  all_chars address_char target = true /\
                  shell_list (ping_command target) = [ping_command target] /\
                  result_of (pingHost target w) = Ret (fst (os_system (ping_command target) w))).
Proof.
  assert (Plain : forall n, target = intToIP n ->
                    all_chars address_char target = true /\
                    shell_list (ping_command target) = [ping_command target] /\
                    result_of (pingHost target w)
                      = Ret (fst (os_system (ping_command target) w))).
  { intros n ->. split; [apply intToIP_chars|]. split; [apply ping_command_plain|].
    rewrite pingHost_run, intToIP_no_nul. reflexivity. }
  split; [|split; [|split]].
  - intros H. rewrite pingHost_run, H. split; reflexivity.
  - intros H. rewrite pingHost_run, H. reflexivity.
  - exact Plain.
  - intros cidr l Hl Hin. destruct (cidrToIPS_addresses cidr l Hl) as [zs ->].
    apply in_map_iff in Hin as [z [Hz _]]. now apply (Plain z).
Qed.

End Ping.

Lemma pingHost_command_witness :
  (all_chars address_char "10.0.0.1" = true /\
   shell_list (ping_command "10.0.0.1") = [ping_command "10.0.0.1"] /\
   result_of (@pingHost lab "10.0.0.1" tt) = Ret 0) /\
  (trace_of (@pingHost lab "gateway.lan" tt) =
     [SystemCall ("ping -c 1 " ++ "gateway.lan" ++ " > /dev/null 2>&1");
      SystemRet (Ret 256)] /\
   result_of (@pingHost lab "gateway.lan" tt) = Ret 256) /\
  @pingHost lab nul_host tt =
    (Raise ValueError, tt,
     [SystemCall ("ping -c 1 " ++ nul_host ++ " > /dev/null 2>&1");
      SystemRet (Raise ValueError)]).
Proof.
  split; [|split].
  - apply (proj1 (proj2 (proj2 (@pingHost_command lab "10.0.0.1" tt))) 167772161).
    reflexivity.
  - apply (proj1 (@pingHost_command lab "gateway.lan" tt)). reflexivity.
  - apply (proj1 (proj2 (@pingHost_command lab nul_host tt))). reflexivity.
Defined.

(** C9, as stated, fails: the target is written into the command line the
    shell reads, so a target with a semicolon in it makes the shell run a
    second command. *)
Lemma pingHost_interpolates_target :
  trace_of (@pingHost lab "10.0.0.1; id" tt) =
    [SystemCall "ping -c 1 10.0.0.1; id > /dev/null 2>&1"; SystemRet (Ret 256)] /\
  shell_list (ping_command "10.0.0.1; id") = ["ping -c 1 10.0.0.1"; " id > /dev/null 2>&1"].
Proof. split; reflexivity. Qed.

(** ** The scan loop *)

Section Loop.

Context {Sys : System}.

(** A host whose lookup returns, or raises a class that has a handler, has
    no NUL character in its name. *)
Lemma handled_no_nul (host : string) (w : World) :
  lookup_handled (fst (gethostbyaddr host w)) = true -> occurs nul host = false.
Proof.
  intros H. destruct (occurs nul host) eqn:E; [|reflexivity].
  rewrite (gethostbyaddr_nul host w E) in H. discriminate H.
Qed.

(** One turn of the loop, in full. *)
Lemma scan_host_run (host : string) (active inactive : Z) (results : list scan_record)
      (w : World) :
  let st := fst (os_system (ping_command host) w) in
  let w1 := snd (os_system (ping_command host) w) in
  let r := fst (gethostbyaddr host w1) in
  let w2 := snd (gethostbyaddr host w1) in
  let calls := [Printed ("Pinging " ++ host ++ "..."); SystemCall (ping_command host);
                SystemRet (Ret st); LookupCall host; LookupRet r] in
  scan_host host (active, inactive, results) w =
  if occurs nul host
  then (Raise ValueError, w,
        [Printed ("Pinging " ++ host ++ "..."); SystemCall (ping_command host);
         SystemRet (Raise ValueError)])
  else
    match dns_of host r with
    | Ret info =>
        (Ret (if st =? 0 then active + 1 else active,
              if st =? 0 then inactive else inactive + 1,
              (results ++ [{| ip := host; status := status_of st; dns := info |}])%list),
         w2,
         (calls ++
          (if st =? 0
           then [Printed (host ++ " is reachable.");
                 Printed ("  Hostname: " ++ show (hostname info))]
           else [Printed (host ++ " is not reachable.")]))%list)
    | Raise e => (Raise e, w2, calls)
    end.
Proof.
  intros st w1 r w2 calls. subst st w1 r w2 calls.
  unfold scan_host. unfold bind at 1. unfold print at 1.
  unfold bind at 1. rewrite pingHost_run.
  destruct (occurs nul host); [reflexivity|].
  unfold bind at 1. rewrite reverseDNS_run.
  destruct (dns_of host _) as [info|e]; [|reflexivity].
  unfold status_of.
  destruct (fst (os_system (ping_command host) w) =? 0); reflexivity.
Qed.

Lemma scan_host_returns (host : string) (s s1 : loop_state) (w w1 : World)
      (t : list event) :
  scan_host host s w = (Ret s1, w1, t) ->
  exists st info,
    s1 = (if st =? 0 then fst (fst s) + 1 else fst (fst s),
          if st =? 0 then snd (fst s) else snd (fst s) + 1,
          (snd s ++ [{| ip := host; status := status_of st; dns := info |}])%list).
Proof.
  destruct s as [[active inactive] results]. rewrite scan_host_run.
  destruct (occurs nul host); [discriminate|].
  destruct (dns_of host _) as [info|e]; [|discriminate].
  intros H. injection H as <- _ _. eexists. eexists. reflexivity.
Qed.

Lemma scan_host_total (host : string) (s : loop_state) (w : World) :
  (forall w0, lookup_handled (fst (gethostbyaddr host w0)) = true) ->
  exists s1, result_of (scan_host host s w) = Ret s1.
Proof.
  intros Hl. destruct s as [[active inactive] results]. rewrite scan_host_run.
  rewrite (handled_no_nul host w (Hl w)).
  destruct (dns_of_handled host _ (Hl (snd (os_system (ping_command host) w))))
    as [info ->].
  eexists. reflexivity.
Qed.





(** X2. One turn of the loop announces the host, runs the ping command once,
    then looks the host up once, whatever the status of the ping, and after
    that it only prints. That is so for a host without a NUL character; for a
    host with one, the turn ends at the ping, which [os.system] refuses with
    a [ValueError]: the host is announced and not looked up. *)
Theorem scan_host_calls (host : string) (s : loop_state) (w : World) :
  (occurs nul host = false ->
   exists st r rest,
     trace_of (scan_host host s w) =
       Printed ("Pinging " ++ host ++ "...") :: SystemCall (ping_command host) ::
       SystemRet (Ret st) :: LookupCall host :: LookupRet r :: rest /\
     forallb is_printed rest = true) /\
  (occurs nul host = true ->
   scan_host host s w =
     (Raise ValueError, w,
      [Printed ("Pinging " ++ host ++ "..."); SystemCall (ping_command host);
       SystemRet (Raise ValueError)])).
Proof.
  destruct s as [[active inactive] results]. rewrite scan_host_run.
  split; intros ->; [|reflexivity].
  exists (fst (os_system (ping_command host) w)).
  exists (fst (gethostbyaddr host (snd (os_system (ping_command host) w)))).
  destruct (dns_of host _) as [info|e]; unfold trace_of; simpl snd.
  - destruct (fst (os_system (ping_command host) w) =? 0);
      eexists; split; reflexivity.
  - exists []. split; reflexivity.
Qed.

Lemma scan_hosts_cons (host : string) (rest : list string) (s : loop_state) (w : World) :
  scan_hosts (host :: rest) s w =
  match scan_host host s w with
  | (Ret s1, w1, t1) =>
      (result_of (scan_hosts rest s1 w1), world_of (scan_hosts rest s1 w1),
       (t1 ++ trace_of (scan_hosts rest s1 w1))%list)
  | (Raise e, w1, t1) => (Raise e, w1, t1)
  end.
Proof.
  simpl. unfold bind. destruct (scan_host host s w) as [[[s1|e] w1] t1]; [|reflexivity].
  destruct (scan_hosts rest s1 w1) as [[r w2] t2]. reflexivity.
Qed.


(** What the loop returns: the counters moved by one per host, and one record
    per host appended, in the order of the hosts. *)
Lemma scan_hosts_returns (hosts : list string) :
  forall (s s1 : loop_state) (w w1 : World) (t : list event),
    scan_hosts hosts s w = (Ret s1, w1, t) ->
    exists new : list scan_record,
      snd s1 = (snd s ++ new)%list /\
      map ip new = hosts /\
      fst (fst s1) = fst (fst s) + count_status "active" new /\
      snd (fst s1) = snd (fst s) + count_status "inactive" new /\
      count_status "active" new + count_status "inactive" new = Z.of_nat (List.length hosts).
Proof.
  induction hosts as [|host rest IH]; intros s s1 w w1 t H.
  - injection H as <- _ _. exists []. rewrite app_nil_r.
    unfold count_status. simpl. repeat split; lia.
  - rewrite scan_hosts_cons in H.
    destruct (scan_host host s w) as [[[s2|e] w2] t2] eqn:Hhost; [|discriminate H].
    destruct (scan_host_returns host s s2 w w2 t2 Hhost) as [st [info Hs2]].
    destruct (scan_hosts rest s2 w2) as [[r w3] t3] eqn:Hrest.
    unfold result_of, world_of, trace_of in H. simpl in H.
    injection H as -> _ _.
    destruct (IH s2 s1 w2 w3 t3 Hrest) as [new [Hrs [Hips [Ha [Hi Hsum]]]]].
    exists ({| ip := host; status := status_of st; dns := info |} :: new).
    subst s2. simpl fst in *. simpl snd in *.
    rewrite Hrs, <- app_assoc. split; [reflexivity|].
    split; [simpl; now rewrite Hips|].
    unfold count_status in *. simpl filter. simpl status.
    unfold status_of. destruct (st =? 0); simpl String.eqb; simpl List.length;
      repeat split; lia.
Qed.

Lemma scan_hosts_total (hosts : list string) :
  hosts_handled hosts ->
  forall (s : loop_state) (w : World), exists s1, result_of (scan_hosts hosts s w) = Ret s1.
Proof.
  induction hosts as [|host rest IH]; intros Hl s w.
  - exists s. reflexivity.
  - rewrite scan_hosts_cons.
    destruct (scan_host_total host s w (fun w0 => Hl host w0 (or_introl eq_refl)))
      as [s1 Hs1].
    destruct (scan_host host s w) as [[[s2|e] w2] t2]; [|discriminate Hs1].
    destruct (IH (fun h w0 Hin => Hl h w0 (or_intror Hin)) s2 w2) as [s3 Hs3].
    exists s3. exact Hs3.
Qed.

End Loop.

(** ** The scan as a whole *)

Section Scan.

Context {Sys : System}.

Lemma exportToCSV_run (results : list scan_record) (output_file : option string)
      (w : World) :
  let named := match output_file with
               | Some f => (f, w, [])
               | None => ("scan_results_" ++ fst (strftime_now "%Y%m%d_%H%M%S" w) ++ ".csv",
                          snd (strftime_now "%Y%m%d_%H%M%S" w),
                          [ClockRead (fst (strftime_now "%Y%m%d_%H%M%S" w))])
               end in
  let path := fst (fst named) in
  let w1 := snd (fst named) in
  let written := to_csv (map row_of results) path w1 in
  exportToCSV results output_file w =
  match fst written with
  | Ret _ =>
      (Ret path, snd written,
       (snd named ++ [CsvWrite (map row_of results) path (fst written);
                      Printed (nl ++ "Results exported to: " ++ path)])%list)
  | Raise e =>
      (Raise e, snd written,
       (snd named ++ [CsvWrite (map row_of results) path (fst written)])%list)
  end.
Proof.
  unfold exportToCSV, bind, call_strftime_now, call_to_csv, print, ret.
  destruct output_file as [f|]; simpl.
  - destruct (to_csv (map row_of results) f w) as [[u|e] w1]; reflexivity.
  - destruct (strftime_now "%Y%m%d_%H%M%S" w) as [stamp w0]. simpl.
    destruct (to_csv (map row_of results) _ w0) as [[u|e] w1]; reflexivity.
Qed.


Lemma exportToCSV_total (results : list scan_record) (output_file : option string)
      (w : World) :
  export_succeeds -> exists path, result_of (exportToCSV results output_file w) = Ret path.
Proof.
  intros He. rewrite exportToCSV_run. cbv zeta.
  rewrite He. eexists. reflexivity.
Qed.

(** X3. [exportToCSV] hands the table writer one row per record, in the order
    of the records, under the path it was given or, without one, under
    [scan_results_<stamp>.csv] with the stamp the clock gave; when it returns,
    it returns that path. A record without hostname or error has empty text in
    these columns. *)
Theorem exportToCSV_rows (results : list scan_record) (output_file : option string)
        (w : World) :
  exists path r,
    In (CsvWrite (map row_of results) path r)
       (trace_of (exportToCSV results output_file w)) /\
    List.length (map row_of results) = List.length results /\
    map col_ip_address (map row_of results) = map ip results /\
    path = match output_file with
           | Some f => f
           | None => "scan_results_" ++ fst (strftime_now "%Y%m%d_%H%M%S" w) ++ ".csv"
           end /\
    (forall p, result_of (exportToCSV results output_file w) = Ret p -> p = path) /\
    (forall rec, In rec results ->
                 (hostname (dns rec) = None -> col_hostname (row_of rec) = "") /\
                 (error (dns rec) = None -> col_dns_error (row_of rec) = "")).
Proof.
  rewrite exportToCSV_run. cbv zeta.
  destruct output_file as [f|]; simpl fst; simpl snd.
  - exists f, (fst (to_csv (map row_of results) f w)).
    split; [destruct (fst (to_csv _ _ _)); unfold trace_of; simpl; auto|].
    split; [apply length_map|]. split; [now rewrite map_map|].
    split; [reflexivity|]. split.
    + intros p. destruct (fst (to_csv _ _ _)); unfold result_of; simpl; intros H;
        [now injection H | discriminate H].
    + intros rec _. split; intros H; unfold row_of; simpl; now rewrite H.
  - set (path := "scan_results_" ++ fst (strftime_now "%Y%m%d_%H%M%S" w) ++ ".csv").
    set (w0 := snd (strftime_now "%Y%m%d_%H%M%S" w)).
    exists path, (fst (to_csv (map row_of results) path w0)).
    split; [destruct (fst (to_csv _ _ _)); unfold trace_of; simpl; auto|].
    split; [apply length_map|]. split; [now rewrite map_map|].
    split; [reflexivity|]. split.
    + intros p. destruct (fst (to_csv _ _ _)); unfold result_of; simpl; intros H;
        [now injection H | discriminate H].
    + intros rec _. split; intros H; unfold row_of; simpl; now rewrite H.
Qed.

(** [runList] after its loop: the summary, the export when asked for, the
    records. *)
Lemma runList_run (hosts : list string) (export_csv : bool) (csv_file : option string)
      (w : World) :
  runList hosts export_csv csv_file w =
  match scan_hosts hosts (0, 0, []) w with
  | (Ret (active, inactive, results), w1, t1) =>
      if export_csv
      then match exportToCSV results csv_file w1 with
           | (Ret _, w2, t2) =>
               (Ret results, w2, (t1 ++ Printed (summary_line active inactive) :: t2)%list)
           | (Raise e, w2, t2) =>
               (Raise e, w2, (t1 ++ Printed (summary_line active inactive) :: t2)%list)
           end
      else (Ret results, w1, (t1 ++ [Printed (summary_line active inactive)])%list)
  | (Raise e, w1, t1) => (Raise e, w1, t1)
  end.
Proof.
  unfold runList. unfold bind at 1.
  destruct (scan_hosts hosts (0, 0, []) w) as [[[[[active inactive] results]|e] w1] t1];
    [|reflexivity].
  unfold bind, print, ret. destruct export_csv.
  - destruct (exportToCSV results csv_file w1) as [[[p|e] w2] t2]; simpl.
    + now rewrite !app_nil_r.
    + reflexivity.
  - reflexivity.
Qed.

Lemma quiet_in_flight (t : list event) : forallb quiet t = true -> in_flight t = 0.
Proof.
  induction t as [|e r IH]; simpl; [reflexivity|].
  intros H. apply andb_true_iff in H as [He Hr]. apply Z.eqb_eq in He.
  rewrite (IH Hr). lia.
Qed.



(** What [runList] returns is what its loop collected: a record per host, in
    the order of the hosts. *)
Lemma runList_result (hosts : list string) (export_csv : bool)
      (csv_file : option string) (w : World) (rs : list scan_record) :
  result_of (runList hosts export_csv csv_file w) = Ret rs -> map ip rs = hosts.
Proof.
  rewrite runList_run. intros H.
  destruct (scan_hosts hosts (0, 0, []) w) as [[[[[active inactive] results]|e] w1] t1]
    eqn:Hscan; [|discriminate H].
  destruct (scan_hosts_returns hosts _ _ _ _ _ Hscan) as [new [Hrs [Hips _]]].
  simpl in Hrs. subst results.
  destruct export_csv.
  - destruct (exportToCSV new csv_file w1) as [[[p|e] w2] t2]; [|discriminate H].
    injection H as <-. exact Hips.
  - injection H as <-. exact Hips.
Qed.

Lemma runList_total (hosts : list string) (export_csv : bool)
      (csv_file : option string) (w : World) :
  hosts_handled hosts -> export_csv = false \/ export_succeeds ->
  exists rs, result_of (runList hosts export_csv csv_file w) = Ret rs.
Proof.
  rewrite runList_run. intros Hl Hx.
  destruct (scan_hosts_total hosts Hl (0, 0, []) w) as [s1 Hs1].
  destruct (scan_hosts hosts (0, 0, []) w) as [[[[[active inactive] results]|e] w1] t1];
    [|discriminate Hs1].
  destruct export_csv.
  - destruct Hx as [Hx|Hx]; [discriminate Hx|].
    destruct (exportToCSV_total results csv_file w1 Hx) as [path Hp].
    destruct (exportToCSV results csv_file w1) as [[[p|e] w2] t2]; [|discriminate Hp].
    exists results. reflexivity.
  - exists results. reflexivity.
Qed.

(** X17. Whenever [runList] returns, it returns one record per host, in the
    order of the hosts: as many records as hosts, the [k]-th record carrying
    the [k]-th host. And it does return, whatever the statuses of the pings,
    when the lookups of its hosts return or fail with [herror] or [gaierror]
    and the export is off or succeeds. *)
Theorem runList_records (hosts : list string) (export_csv : bool)
        (csv_file : option string) (w : World) :
  (forall rs,
      result_of (runList hosts export_csv csv_file w) = Ret rs ->
      List.length rs = List.length hosts /\
      map ip rs = hosts /\
      (forall k host, nth_error hosts k = Some host ->
                      exists r, nth_error rs k = Some r /\ ip r = host)) /\
  (hosts_handled hosts -> export_csv = false \/ export_succeeds ->
   exists rs, result_of (runList hosts export_csv csv_file w) = Ret rs).
Proof.
  split.
  - intros rs H. pose proof (runList_result hosts export_csv csv_file w rs H) as Hips.
    split; [rewrite <- Hips; now rewrite length_map|].
    split; [exact Hips|].
    intros k host Hk. rewrite <- Hips in Hk. rewrite nth_error_map in Hk.
    destruct (nth_error rs k) as [r|]; [|discriminate Hk].
    exists r. split; [reflexivity|]. now injection Hk.
  - apply runList_total.
Qed.

(** C7, amended. The program has no ceiling: for every prefix length [p] from
    0 to 32, [cidrToIPS] returns all [2^(32-p)] addresses of the block, and
    [runList] scans the list it is given, whatever its length: what it returns
    for that list has [2^(32-p)] records, and it returns when the lookups of
    these addresses return or fail with [herror] or [gaierror] and the export
    is off or succeeds. *)
Theorem scan_no_ceiling (cidr : string) (a b c d p : Z) (export_csv : bool)
        (csv_file : option string) (w : World) :
  parse_cidr cidr = Some (a, b, c, d, p) -> 0 <= p <= 32 ->
  exists l,
    cidrToIPS cidr = Ret l /\
    Z.of_nat (List.length l) = 2 ^ (32 - p) /\
    (forall rs, result_of (runList l export_csv csv_file w) = Ret rs ->
                Z.of_nat (List.length rs) = 2 ^ (32 - p)) /\
    (hosts_handled l -> export_csv = false \/ export_succeeds ->
     exists rs, result_of (runList l export_csv csv_file w) = Ret rs).
Proof.
  intros Hparse Hp.
  destruct (cidrToIPS_length cidr a b c d p Hparse Hp) as [l [Hl Hn]].
  exists l. split; [exact Hl|]. split; [exact Hn|]. split.
  - intros rs H. apply runList_result in H.
    rewrite <- Hn, <- H. now rewrite length_map.
  - apply runList_total.
Qed.

(** C2. Each turn of the loop moves exactly one of the two counters, by one,
    and the record it appends is "active" exactly when it was the active
    counter; so when the loop ends, the active counter is the number of
    "active" records, the inactive counter the number of "inactive" ones,
    their sum the number of hosts, and these are the numbers of the summary
    line. The loop does end when the lookups of its hosts return or fail with
    [herror] or [gaierror]. *)
Theorem scan_counters (hosts : list string) (export_csv : bool)
        (csv_file : option string) (w : World) :
  (forall host active inactive results w0 s1 w1 t1,
      scan_host host (active, inactive, results) w0 = (Ret s1, w1, t1) ->
      exists r, ip r = host /\
        ((s1 = (active + 1, inactive, (results ++ [r])%list) /\ status r = "active") \/
         (s1 = (active, inactive + 1, (results ++ [r])%list) /\ status r = "inactive"))) /\
  (forall active inactive results w1 t,
      scan_hosts hosts (0, 0, []) w = (Ret (active, inactive, results), w1, t) ->
      active + inactive = Z.of_nat (List.length hosts) /\
      active = count_status "active" results /\
      inactive = count_status "inactive" results /\
      In (Printed (summary_line active inactive))
         (trace_of (runList hosts export_csv csv_file w))) /\
  (hosts_handled hosts -> exists s1, result_of (scan_hosts hosts (0, 0, []) w) = Ret s1).
Proof.
  split; [|split].
  - intros host active inactive results w0 s1 w1 t1 H.
    destruct (scan_host_returns host _ s1 w0 w1 t1 H) as [st [info ->]].
    exists {| ip := host; status := status_of st; dns := info |}.
    split; [reflexivity|]. unfold status_of. simpl.
    destruct (st =? 0); [left | right]; now split.
  - intros active inactive results w1 t H.
    destruct (scan_hosts_returns hosts _ _ _ _ _ H) as [new [Hrs [_ [Ha [Hi Hsum]]]]].
    simpl in Hrs, Ha, Hi. subst results.
    repeat split; try lia.
    rewrite runList_run, H.
    destruct export_csv.
    + destruct (exportToCSV new csv_file w1) as [[[p|e] w2] t2];
        unfold trace_of; simpl snd; apply in_or_app; right; now left.
    + unfold trace_of; simpl snd. apply in_or_app. right. now left.
  - intros Hl. now apply scan_hosts_total.
Qed.


End Scan.

(** In the laboratory every lookup is handled, of whatever host without a NUL
    character in its name. *)
Lemma lab_hosts_handled (hosts : list string) :
  forallb no_nul hosts = true -> @hosts_handled lab hosts.
Proof.
  intros H host w Hin. rewrite forallb_forall in H. specialize (H host Hin).
  unfold no_nul in H. apply negb_true_iff in H.
  simpl. unfold checked. rewrite H.
  destruct (String.eqb host "10.0.0.1"); [reflexivity|].
  destruct (String.eqb host "10.0.0.3"); reflexivity.
Defined.

(** In the faulty laboratory the lookups of these two addresses are. *)
Lemma faulty_lab_hosts_handled : @hosts_handled faulty_lab ["10.0.0.1"; "10.0.0.2"].
Proof.
  intros host w [<-|[<-|[]]]; reflexivity.
Defined.

Lemma lab_export_succeeds : @export_succeeds lab.
Proof. intros rows path w. reflexivity. Defined.

Lemma runList_records_witness :
  (List.length (A := scan_record)
     [ {| ip := "10.0.0.1"; status := "active";
          dns := {| dns_ip := "10.0.0.1"; hostname := Some "gateway.lan"; aliases := [];
                    addresses := ["10.0.0.1"]; error := None |} |};
       {| ip := "10.0.0.2"; status := "inactive";
          dns := {| dns_ip := "10.0.0.2"; hostname := None; aliases := [];
                    addresses := []; error := Some "No PTR record found" |} |};
       {| ip := "10.0.0.3"; status := "inactive";
          dns := {| dns_ip := "10.0.0.3"; hostname := None; aliases := [];
                    addresses := []; error := Some "Invalid IP address" |} |} ]
   = List.length lab_hosts) /\
  (exists rs, result_of (@runList lab lab_hosts true None tt) = Ret rs) /\
  (exists rs, result_of (@runList faulty_lab ["10.0.0.1"; "10.0.0.2"] false None tt) = Ret rs).
Proof.
  split; [|split].
  - apply (proj1 (@runList_records lab lab_hosts true None tt)). reflexivity.
  - apply (proj2 (@runList_records lab lab_hosts true None tt)).
    + exact (lab_hosts_handled lab_hosts eq_refl).
    + right. exact lab_export_succeeds.
  - apply (proj2 (@runList_records faulty_lab ["10.0.0.1"; "10.0.0.2"] false None tt)).
    + exact faulty_lab_hosts_handled.
    + left. reflexivity.
Defined.

Lemma scan_counters_witness :
  1 + 2 = Z.of_nat (List.length lab_hosts) /\
  exists s1, result_of (@scan_hosts lab lab_hosts (0, 0, []) tt) = Ret s1.
Proof.
  split.
  - eapply (proj1 (proj2 (@scan_counters lab lab_hosts false None tt))). reflexivity.
  - apply (proj2 (proj2 (@scan_counters lab lab_hosts false None tt))).
    exact (lab_hosts_handled lab_hosts eq_refl).
Defined.


Lemma scan_no_ceiling_witness :
  exists l,
    cidrToIPS "10.0.0.0/30" = Ret l /\
    Z.of_nat (List.length l) = 2 ^ (32 - 30) /\
    (forall rs, result_of (@runList lab l true None tt) = Ret rs ->
                Z.of_nat (List.length rs) = 2 ^ (32 - 30)) /\
    (@hosts_handled lab l -> true = false \/ @export_succeeds lab ->
     exists rs, result_of (@runList lab l true None tt) = Ret rs).
Proof.
  apply (@scan_no_ceiling lab "10.0.0.0/30" 10 0 0 0 30 true None tt);
    [reflexivity | lia].
Defined.

(** C7, as stated, fails: ["0.0.0.0/8"] is expanded in full, to 16,777,216
    addresses, and the scan of that list runs to its end, one record per
    address; no ceiling stops either. *)
Lemma scan_expands_slash_8 :
  exists l,
    cidrToIPS "0.0.0.0/8" = Ret l /\
    Z.of_nat (List.length l) = 16777216 /\
    exists rs,
      result_of (@runList lab l false None tt) = Ret rs /\
      Z.of_nat (List.length rs) = 16777216.
Proof.
  destruct (cidrToIPS_length "0.0.0.0/8" 0 0 0 0 8) as [l [Hl Hn]];
    [reflexivity | lia |].
  exists l. split; [exact Hl|]. split; [rewrite Hn; reflexivity|].
  destruct (@runList_total lab l false None tt
              (lab_hosts_handled l (cidrToIPS_no_nul _ l Hl)) (or_introl eq_refl))
    as [rs Hrs].
  exists rs. split; [exact Hrs|].
  apply runList_result in Hrs. rewrite <- Hrs, length_map in Hn.
  rewrite Hn. reflexivity.
Qed.

(** C1, at the failing input. The lookup of the malformed address ["1..2"]
    ends in a [UnicodeError], which [reverseDNS] does not turn into a
    dictionary, and the scan of the two addresses ends with it: [runList]
    raises where the loop stands and returns no record, not for ["1..2"] and
    not for 10.0.0.1, which had answered the ping and had been looked up. *)
Lemma runList_loses_records :
  result_of (@runList faulty_lab ["10.0.0.1"; "1..2"] false None tt) = Raise UnicodeError /\
  trace_of (@runList faulty_lab ["10.0.0.1"; "1..2"] false None tt) =
    [Printed "Pinging 10.0.0.1..."; SystemCall (ping_command "10.0.0.1");
     SystemRet (Ret 0); LookupCall "10.0.0.1";
     LookupRet (Ret ("gateway.lan", [], ["10.0.0.1"]));
     Printed "10.0.0.1 is reachable."; Printed "  Hostname: gateway.lan";
     Printed "Pinging 1..2..."; SystemCall (ping_command "1..2");
     SystemRet (Ret 256); LookupCall "1..2"; LookupRet (Raise UnicodeError)].
Proof. split; reflexivity. Qed.

(** * Further properties *)

(** ** Reading and writing addresses *)

Lemma octet_at_low_bits (n s : Z) :
  s = 24 \/ s = 16 \/ s = 8 \/ s = 0 ->
  octet_at (n mod 2 ^ 32) s = octet_at n s.
Proof.
  intros Hs. rewrite !octet_at_div by lia.
  change (2 ^ 32) with 4294967296.
  destruct Hs as [-> | [-> | [-> | ->]]];
    [change (2 ^ 24) with 16777216 | change (2 ^ 16) with 65536
     | change (2 ^ 8) with 256 | change (2 ^ 0) with 1];
    Z.div_mod_to_equations; lia.
Qed.

Lemma intToIP_mod (n : Z) : intToIP (n mod 2 ^ 32) = intToIP n.
Proof.
  rewrite !intToIP_octets.
  rewrite !octet_at_low_bits by tauto. reflexivity.
Qed.

(** What [intToIP] wrote for a 32-bit value, [IPToInt] reads. *)
Lemma IPToInt_written (k : Z) : 0 <= k < 2 ^ 32 -> IPToInt (intToIP k) = Ret k.
Proof.
  intros Hk. rewrite <- (pack_octets k Hk) at 2.
  apply (IPToInt_fields _ (Py.str (octet_at k 24)) (Py.str (octet_at k 16))
                          (Py.str (octet_at k 8)) (Py.str (octet_at k 0))).
  - rewrite intToIP_octets. apply split_dotted; apply str_octet_digits, octet_at_range.
  - apply int_str_octet, octet_at_range.
  - apply int_str_octet, octet_at_range.
  - apply int_str_octet, octet_at_range.
  - apply int_str_octet, octet_at_range.
Qed.

(** X5. [intToIP] writes the low 32 bits of its argument, of any integer,
    negative ones included: the string is that of [n mod 2^32], [IPToInt]
    reads [n mod 2^32] in it, and two integers are written alike exactly when
    they agree modulo [2^32]. *)
Theorem intToIP_low_bits (n m : Z) :
  intToIP n = intToIP (n mod 2 ^ 32) /\
  IPToInt (intToIP n) = Ret (n mod 2 ^ 32) /\
  (intToIP n = intToIP m <-> n mod 2 ^ 32 = m mod 2 ^ 32).
Proof.
  assert (B : forall k, 0 <= k mod 2 ^ 32 < 2 ^ 32)
    by (intros k; apply Z.mod_pos_bound; reflexivity).
  split; [now rewrite intToIP_mod|].
  split.
  - rewrite <- intToIP_mod. apply IPToInt_written, B.
  - split.
    + intros E. rewrite <- (intToIP_mod n), <- (intToIP_mod m) in E.
      pose proof (IPToInt_written _ (B n)) as Rn. rewrite E, (IPToInt_written _ (B m)) in Rn.
      now injection Rn.
    + intros E. rewrite <- (intToIP_mod n), <- (intToIP_mod m), E. reflexivity.
Qed.

(** ** More on blocks *)

Lemma masks_fit : forallb (fun p => mask_fits p && prefix_form_ok p) prefix_lengths = true.
Proof. vm_compute. reflexivity. Qed.

Lemma mask_fit_facts (p : Z) :
  0 <= p <= 32 ->
  Z.land (mask_of p) (Z.ones 32) = mask_of p /\
  Z.lor (mask_of p) (code_host_bits p) = Z.ones 32 /\
  code_host_bits p = Z.ones (32 - p) /\
  Py.int (Py.str p) = Ret p /\
  all_digits (Py.str p) = true.
Proof.
  intros H. pose proof masks_fit as F. rewrite forallb_forall in F.
  assert (I : In p prefix_lengths) by (apply range_In; lia).
  specialize (F p I). unfold mask_fits, prefix_form_ok in F.
  apply andb_true_iff in F as [F G]. apply andb_true_iff in G as [G1 G2].
  repeat (apply andb_true_iff in F as [F ?]).
  repeat split; first [now apply Z.eqb_eq | now apply res_eqb_eq | assumption].
Qed.

Lemma land_disjoint_parts (a m h : Z) :
  Z.land m h = 0 -> Z.land (Z.land a m) (Z.land a h) = 0.
Proof.
  intros H. apply Z.bits_inj'. intros i Hi.
  pose proof (f_equal (fun x => Z.testbit x i) H) as Hb. simpl in Hb.
  rewrite Z.land_spec, Z.bits_0 in Hb.
  rewrite !Z.land_spec, Z.bits_0.
  destruct (Z.testbit a i), (Z.testbit m i), (Z.testbit h i); auto.
Qed.

(** The network address of a 32-bit address is the address without its host
    bits. *)
Lemma network_of_32 (addr p : Z) :
  0 <= p <= 32 -> 0 <= addr < 2 ^ 32 ->
  network_of addr p = addr - addr mod 2 ^ (32 - p).
Proof.
  intros Hp Ha.
  destruct (mask_facts p Hp) as [_ [_ [_ [Ed _]]]].
  destruct (mask_fit_facts p Hp) as [_ [El [Eo _]]].
  assert (E : addr = Z.lor (Z.land addr (mask_of p)) (Z.land addr (code_host_bits p))).
  { rewrite <- Z.land_lor_distr_r, El, Z.land_ones by lia. symmetry. now apply Z.mod_small. }
  rewrite lor_disjoint in E by now apply land_disjoint_parts.
  rewrite Eo, (Z.land_ones addr) in E by lia.
  unfold network_of. lia.
Qed.

(** Where a block lies: a multiple of its size, below [2^32] to its end. *)
Lemma block_bounds (addr p : Z) :
  0 <= p <= 32 ->
  0 <= network_of addr p /\
  network_of addr p mod 2 ^ (32 - p) = 0 /\
  broadcast_of addr p = network_of addr p + 2 ^ (32 - p) - 1 /\
  broadcast_of addr p < 2 ^ 32.
Proof.
  intros Hp.
  destruct (block_extent addr p Hp) as [Hn Hb].
  destruct (mask_facts p Hp) as [_ [_ [Eh [Ed _]]]].
  destruct (mask_fit_facts p Hp) as [Ef [_ [Eo _]]].
  assert (Hmod : network_of addr p mod 2 ^ (32 - p) = 0).
  { rewrite <- Z.land_ones by lia. rewrite <- Eo. unfold network_of.
    rewrite <- Z.land_assoc, Ed. apply Z.land_0_r. }
  assert (Hlt : network_of addr p < 2 ^ 32).
  { assert (E : network_of addr p mod 2 ^ 32 = network_of addr p).
    { rewrite <- Z.land_ones by lia. unfold network_of.
      now rewrite <- Z.land_assoc, Ef. }
    rewrite <- E. apply Z.mod_pos_bound. reflexivity. }
  repeat split; try assumption.
  rewrite Hb.
  assert (Hk : 0 < 2 ^ (32 - p)) by (apply Z.pow_pos_nonneg; lia).
  assert (Hpow : 2 ^ 32 = 2 ^ p * 2 ^ (32 - p))
    by (rewrite <- Z.pow_add_r by lia; f_equal; lia).
  apply Z.mod_divide in Hmod; [|lia]. destruct Hmod as [q Hq].
  rewrite Hq in *. rewrite Hpow in *.
  assert (q < 2 ^ p) by nia. nia.
Qed.

Lemma range_NoDup (lo hi : Z) : NoDup (Py.range lo hi).
Proof.
  unfold Py.range. apply NoDup_map_NoDup_ForallPairs; [|apply seq_NoDup].
  intros i j _ _ E. lia.
Qed.

Lemma range_hd_last (lo hi : Z) :
  lo < hi -> hd 0 (Py.range lo hi) = lo /\ last (Py.range lo hi) 0 = hi - 1.
Proof.
  intros H. unfold Py.range.
  destruct (Z.to_nat (hi - lo)) as [|n] eqn:En; [lia|].
  split; [simpl; lia|].
  replace (S n) with (n + 1)%nat by lia.
  rewrite seq_app, map_app. simpl. rewrite last_last. lia.
Qed.

(** X6. For octets in 0..255 and a prefix length from 0 to 32, the list
    [cidrToIPS] returns holds no address twice, holds the address its argument
    names, starts with the network address and ends with the broadcast
    address. *)
Theorem cidrToIPS_members (cidr : string) (a b c d p : Z) :
  parse_cidr cidr = Some (a, b, c, d, p) ->
  0 <= a <= 255 -> 0 <= b <= 255 -> 0 <= c <= 255 -> 0 <= d <= 255 ->
  0 <= p <= 32 ->
  exists l,
    cidrToIPS cidr = Ret l /\
    NoDup l /\
    In (intToIP (pack a b c d)) l /\
    hd EmptyString l = intToIP (network_of (pack a b c d) p) /\
    last l EmptyString = intToIP (broadcast_of (pack a b c d) p).
Proof.
  intros Hparse Ha Hb Hc Hd Hp.
  pose proof (pack_range a b c d Ha Hb Hc Hd) as Hpack.
  destruct (mask_facts p Hp) as [Em [Ex _]].
  destruct (block_bounds (pack a b c d) p Hp) as [Hn [Hmod [Hbc Hlt]]].
  pose proof (network_of_32 (pack a b c d) p Hp Hpack) as Hnet.
  assert (Hk : 0 < 2 ^ (32 - p)) by (apply Z.pow_pos_nonneg; lia).
  pose proof (Z.mod_pos_bound (pack a b c d) (2 ^ (32 - p)) Hk) as Hrem.
  set (zs := Py.range (network_of (pack a b c d) p) (broadcast_of (pack a b c d) p + 1)).
  assert (Hl : cidrToIPS cidr = Ret (map intToIP zs)).
  { rewrite (cidrToIPS_parsed cidr a b c d p Hparse) by lia.
    unfold zs, network_of, broadcast_of, network_of. now rewrite Em, Ex. }
  exists (map intToIP zs). split; [exact Hl|].
  destruct (range_hd_last (network_of (pack a b c d) p)
                          (broadcast_of (pack a b c d) p + 1) ltac:(lia)) as [Hhd Hlast].
  fold zs in Hhd, Hlast.
  assert (Hne : zs <> []).
  { intros E. assert (I : In (network_of (pack a b c d) p) zs)
      by (apply range_In; lia). rewrite E in I. exact I. }
  split; [|split; [|split]].
  - apply NoDup_map_NoDup_ForallPairs; [|apply range_NoDup].
    intros x y Hx Hy E. apply range_In in Hx, Hy.
    pose proof (IPToInt_written x ltac:(lia)) as Rx.
    rewrite E, (IPToInt_written y) in Rx by lia. now injection Rx.
  - apply in_map. apply range_In. lia.
  - destruct zs as [|z zs']; [contradiction|]. simpl in *. now rewrite Hhd.
  - destruct (exists_last Hne) as [front [z Ez]]. rewrite Ez in *.
    rewrite map_app. simpl. rewrite !last_last in *. rewrite Hlast. f_equal. lia.
Qed.

Lemma cidrToIPS_members_witness :
  exists l,
    cidrToIPS "192.168.1.77/24" = Ret l /\
    NoDup l /\
    In (intToIP (pack 192 168 1 77)) l /\
    hd EmptyString l = intToIP (network_of (pack 192 168 1 77) 24) /\
    last l EmptyString = intToIP (broadcast_of (pack 192 168 1 77) 24).
Proof.
  apply (cidrToIPS_members "192.168.1.77/24" 192 168 1 77 24);
    first [reflexivity | lia].
Defined.

(** The CIDR string of a written address and of a prefix length reads as the
    octets of the address and that prefix length. *)
Lemma parse_cidr_of (z p : Z) :
  0 <= p <= 32 ->
  parse_cidr (cidr_of (intToIP z) p) =
  Some (octet_at z 24, octet_at z 16, octet_at z 8, octet_at z 0, p).
Proof.
  intros Hp. destruct (mask_fit_facts p Hp) as [_ [_ [_ [Ei Ed]]]].
  unfold parse_cidr, cidr_of.
  change ("/" ++ Py.str p) with (String slash (Py.str p)).
  rewrite split_field
    by (apply address_chars_exclude; [reflexivity | apply intToIP_chars]).
  rewrite split_free
    by (apply address_chars_exclude; [reflexivity | now apply digits_address_chars]).
  rewrite intToIP_octets.
  rewrite split_dotted by apply str_octet_digits, octet_at_range.
  rewrite !int_str_octet by apply octet_at_range.
  now rewrite Ei.
Qed.

(** X7. The blocks of one prefix length [p], from 0 to 32, part the
    addresses: the CIDR string made of any element of a list [cidrToIPS]
    returned and of [p] expands to that same list, and two lists returned for
    the prefix length [p] that share an address are one list. *)
Theorem cidrToIPS_same_block (p : Z) :
  0 <= p <= 32 ->
  (forall cidr a b c d l x,
      parse_cidr cidr = Some (a, b, c, d, p) ->
      cidrToIPS cidr = Ret l -> In x l ->
      cidrToIPS (cidr_of x p) = Ret l) /\
  (forall cidr1 a1 b1 c1 d1 l1 cidr2 a2 b2 c2 d2 l2 x,
      parse_cidr cidr1 = Some (a1, b1, c1, d1, p) ->
      parse_cidr cidr2 = Some (a2, b2, c2, d2, p) ->
      cidrToIPS cidr1 = Ret l1 -> cidrToIPS cidr2 = Ret l2 ->
      In x l1 -> In x l2 -> l1 = l2).
Proof.
  intros Hp.
  assert (Key : forall cidr a b c d l x,
             parse_cidr cidr = Some (a, b, c, d, p) ->
             cidrToIPS cidr = Ret l -> In x l ->
             cidrToIPS (cidr_of x p) = Ret l).
  { intros cidr a b c d l x Hparse Hl Hin.
    destruct (mask_facts p Hp) as [Em [Ex _]].
    destruct (block_bounds (pack a b c d) p Hp) as [Hn [Hmod [Hbc Hlt]]].
    assert (Hk : 0 < 2 ^ (32 - p)) by (apply Z.pow_pos_nonneg; lia).
    rewrite (cidrToIPS_parsed cidr a b c d p Hparse) in Hl by lia.
    injection Hl as <-.
    apply in_map_iff in Hin as [z [<- Hz]]. apply range_In in Hz.
    rewrite Em in Hz. fold (network_of (pack a b c d) p) in Hz.
    rewrite Ex in Hz. fold (broadcast_of (pack a b c d) p) in Hz.
    assert (Hz32 : 0 <= z < 2 ^ 32) by lia.
    rewrite (cidrToIPS_parsed _ _ _ _ _ _ (parse_cidr_of z p Hp)) by lia.
    rewrite (pack_octets z Hz32).
    assert (E : Z.land z (code_mask p) = Z.land (pack a b c d) (code_mask p)).
    { rewrite Em. fold (network_of z p) (network_of (pack a b c d) p).
      rewrite (network_of_32 z p Hp Hz32).
      apply Z.mod_divide in Hmod; [|lia]. destruct Hmod as [q Hq].
      rewrite Hq in *.
      assert (Hj : z mod 2 ^ (32 - p) = z - q * 2 ^ (32 - p)).
      { replace z with ((z - q * 2 ^ (32 - p)) + q * 2 ^ (32 - p)) at 1 by lia.
        rewrite Z.mod_add by lia. apply Z.mod_small. lia. }
      lia. }
    now rewrite E. }
  split; [exact Key|].
  intros cidr1 a1 b1 c1 d1 l1 cidr2 a2 b2 c2 d2 l2 x P1 P2 H1 H2 I1 I2.
  pose proof (Key _ _ _ _ _ _ _ P1 H1 I1) as E1.
  pose proof (Key _ _ _ _ _ _ _ P2 H2 I2) as E2.
  rewrite E1 in E2. now injection E2.
Qed.

Lemma cidrToIPS_same_block_witness :
  cidrToIPS (cidr_of "10.0.0.2" 30) = Ret ["10.0.0.0"; "10.0.0.1"; "10.0.0.2"; "10.0.0.3"].
Proof.
  apply (proj1 (cidrToIPS_same_block 30 ltac:(lia)) "10.0.0.0/30" 10 0 0 0);
    first [reflexivity | simpl; auto].
Defined.

(** X15. A longer prefix gives a part of the block: for octets in 0..255 and
    prefix lengths [p <= q] from 0 to 32, every address [cidrToIPS] returns
    for the address with [q] is one it returns for the address with [p]. *)
Theorem cidrToIPS_nested (cidr1 cidr2 : string) (a b c d p q : Z) :
  parse_cidr cidr1 = Some (a, b, c, d, p) ->
  parse_cidr cidr2 = Some (a, b, c, d, q) ->
  0 <= a <= 255 -> 0 <= b <= 255 -> 0 <= c <= 255 -> 0 <= d <= 255 ->
  0 <= p <= q -> q <= 32 ->
  exists l1 l2,
    cidrToIPS cidr1 = Ret l1 /\ cidrToIPS cidr2 = Ret l2 /\ incl l2 l1.
Proof.
  intros P1 P2 Ha Hb Hc Hd Hpq Hq.
  assert (Hp : 0 <= p <= 32) by lia. assert (Hq' : 0 <= q <= 32) by lia.
  pose proof (pack_range a b c d Ha Hb Hc Hd) as Hpack.
  destruct (mask_facts p Hp) as [Em1 [Ex1 _]].
  destruct (mask_facts q Hq') as [Em2 [Ex2 _]].
  destruct (block_extent (pack a b c d) p Hp) as [_ Hb1].
  destruct (block_extent (pack a b c d) q Hq') as [_ Hb2].
  pose proof (network_of_32 (pack a b c d) p Hp Hpack) as N1.
  pose proof (network_of_32 (pack a b c d) q Hq' Hpack) as N2.
  eexists. eexists.
  split; [apply (cidrToIPS_parsed cidr1 a b c d p P1); lia|].
  split; [apply (cidrToIPS_parsed cidr2 a b c d q P2); lia|].
  intros x Hin. apply in_map_iff in Hin as [z [<- Hz]]. apply in_map.
  apply range_In in Hz. apply range_In.
  rewrite Em1, Ex1. rewrite Em2, Ex2 in Hz.
  fold (network_of (pack a b c d) p) (network_of (pack a b c d) q) in *.
  fold (broadcast_of (pack a b c d) p). fold (broadcast_of (pack a b c d) q) in Hz.
  rewrite Hb1, N1. rewrite Hb2, N2 in Hz.
  assert (Hk : 0 < 2 ^ (32 - q)) by (apply Z.pow_pos_nonneg; lia).
  assert (Hm : 0 < 2 ^ (q - p)) by (apply Z.pow_pos_nonneg; lia).
  assert (Hpow : 2 ^ (32 - p) = 2 ^ (q - p) * 2 ^ (32 - q))
    by (rewrite <- Z.pow_add_r by lia; f_equal; lia).
  set (n := pack a b c d) in *. set (K := 2 ^ (32 - q)) in *.
  set (M := 2 ^ (q - p)) in *. rewrite Hpow.
  assert (R1 : n mod (M * K) = n mod K + K * ((n / K) mod M))
    by (rewrite Z.mul_comm; apply Z.rem_mul_r; lia).
  pose proof (Z.mod_pos_bound (n / K) M Hm).
  pose proof (Z.mod_pos_bound n K Hk).
  nia.
Qed.

Lemma cidrToIPS_nested_witness :
  exists l1 l2,
    cidrToIPS "10.1.2.3/16" = Ret l1 /\ cidrToIPS "10.1.2.3/24" = Ret l2 /\ incl l2 l1.
Proof.
  apply (cidrToIPS_nested "10.1.2.3/16" "10.1.2.3/24" 10 1 2 3 16 24);
    first [reflexivity | lia].
Defined.

(** ** More on the reverse lookup *)

Section LookupShape.

Context {Sys : System}.

(** X8. A dictionary [reverseDNS] returns is about the address asked for, and
    it holds either a hostname and no error, or an error and then no
    hostname, no aliases and no addresses; [reverseDNS] makes one lookup, of
    that address, and nothing else. *)
Theorem reverseDNS_shape (addr : string) (w : World) :
  trace_of (reverseDNS addr w) = [LookupCall addr; LookupRet (fst (gethostbyaddr addr w))] /\
  world_of (reverseDNS addr w) = snd (gethostbyaddr addr w) /\
  (forall info,
      result_of (reverseDNS addr w) = Ret info ->
      dns_ip info = addr /\
      (hostname info = None <-> error info <> None) /\
      (error info <> None -> aliases info = [] /\ addresses info = [])).
Proof.
  rewrite reverseDNS_run. unfold trace_of, world_of, result_of. simpl.
  split; [reflexivity|]. split; [reflexivity|].
  intros info H.
  destruct (fst (gethostbyaddr addr w)) as [[[h al] ad]|e]; simpl in H.
  - injection H as <-. simpl. repeat split; try discriminate; congruence.
  - destruct e; try discriminate H; injection H as <-; simpl;
      repeat split; try discriminate; congruence.
Qed.

End LookupShape.

(** ** More on the scan *)

Section ScanFacts.

Context {Sys : System}.

Lemma dns_of_record (host : string) (r : res dns_answer) (info : dns_info) (st : Z) :
  dns_of host r = Ret info ->
  record_ok {| ip := host; status := status_of st; dns := info |} = true.
Proof.
  intros H.
  assert (Hst : (String.eqb (status_of st) "active"
                 || String.eqb (status_of st) "inactive") = true)
    by (unfold status_of; destruct (st =? 0); reflexivity).
  assert (Shape : String.eqb (dns_ip info) host = true /\
                  match hostname info, error info with
                  | Some _, None => true
                  | None, Some e =>
                      (String.eqb e "No PTR record found"
                       || String.eqb e "Invalid IP address")
                      && is_nil (aliases info) && is_nil (addresses info)
                  | _, _ => false
                  end = true).
  { destruct r as [[[h al] ad]|e]; simpl in H.
    - injection H as <-. simpl. now rewrite String.eqb_refl.
    - destruct e; try discriminate H; injection H as <-; simpl;
        now rewrite String.eqb_refl. }
  destruct Shape as [Hip Hdns].
  unfold record_ok. simpl. now rewrite Hst, Hip, Hdns.
Qed.

Lemma dns_of_raises (host : string) (r : res dns_answer) (e : exn) :
  dns_of host r = Raise e -> r = Raise e /\ lookup_handled r = false.
Proof.
  destruct r as [[[h al] ad]|e0]; simpl; [discriminate|].
  destruct e0; try discriminate; intros H; injection H as <-; now split.
Qed.

(** One turn of the loop, as the trace and the result show it. *)
Lemma scan_host_facts (host : string) (s : loop_state) (w : World) :
  let o := scan_host host s w in
  pings (trace_of o) = [ping_command host] /\
  lookups (trace_of o) = (if occurs nul host then [] else [host]) /\
  csv_writes (trace_of o) = [] /\
  clock_reads (trace_of o) = [] /\
  (forall s1, result_of o = Ret s1 ->
     occurs nul host = false /\
     exists r, snd s1 = (snd s ++ [r])%list /\ ip r = host /\ record_ok r = true /\
               map status_of (ping_results (trace_of o)) = [status r]) /\
  (forall e, result_of o = Raise e ->
     (occurs nul host = true /\ e = ValueError) \/
     (occurs nul host = false /\
      exists w0, fst (gethostbyaddr host w0) = Raise e /\
                 lookup_handled (fst (gethostbyaddr host w0)) = false)).
Proof.
  destruct s as [[active inactive] results]. cbv zeta. rewrite scan_host_run.
  destruct (occurs nul host) eqn:Hnul.
  - unfold trace_of, result_of; simpl fst; simpl snd.
    split; [reflexivity|]. split; [reflexivity|]. split; [reflexivity|].
    split; [reflexivity|]. split.
    + intros s1 H. discriminate H.
    + intros e H. injection H as <-. left. now split.
  - destruct (dns_of host _) as [info|e] eqn:Hd; unfold trace_of, result_of;
      simpl fst; simpl snd.
    + split; [destruct (_ =? 0); reflexivity|].
      split; [destruct (_ =? 0); reflexivity|].
      split; [destruct (_ =? 0); reflexivity|].
      split; [destruct (_ =? 0); reflexivity|]. split.
      * intros s1 H. injection H as <-. split; [reflexivity|].
        exists {| ip := host; status := status_of (fst (os_system (ping_command host) w));
                  dns := info |}.
        split; [reflexivity|]. split; [reflexivity|].
        split; [exact (dns_of_record host _ info _ Hd)|].
        destruct (fst (os_system (ping_command host) w) =? 0); reflexivity.
      * intros e H. discriminate H.
    + split; [reflexivity|]. split; [reflexivity|]. split; [reflexivity|].
      split; [reflexivity|]. split.
      * intros s1 H. discriminate H.
      * intros e0 H. injection H as <-. right. split; [reflexivity|].
        destruct (dns_of_raises host _ e Hd) as [Hr Hh].
        exists (snd (os_system (ping_command host) w)). now split.
Qed.

(** The loop, as the trace and the result show it: the hosts are pinged and
    looked up one by one from the first on, up to the host whose ping or
    whose lookup raises, if one does; a host whose ping raises is not looked
    up. *)
Lemma scan_hosts_facts (hosts : list string) :
  forall (s : loop_state) (w : World),
    let o := scan_hosts hosts s w in
    csv_writes (trace_of o) = [] /\
    clock_reads (trace_of o) = [] /\
    forallb no_nul (lookups (trace_of o)) = true /\
    (exists k j, (k <= List.length hosts)%nat /\
                 pings (trace_of o) = map ping_command (firstn k hosts) /\
                 lookups (trace_of o) = firstn j hosts /\
                 (j = k \/
                  (S j = k /\ result_of o = Raise ValueError /\
                   exists host, nth_error hosts j = Some host /\ occurs nul host = true))) /\
    (forall s1, result_of o = Ret s1 ->
       exists new, snd s1 = (snd s ++ new)%list /\
                   map ip new = hosts /\
                   forallb record_ok new = true /\
                   map status new = map status_of (ping_results (trace_of o)) /\
                   pings (trace_of o) = map ping_command hosts /\
                   lookups (trace_of o) = hosts) /\
    (forall e, result_of o = Raise e ->
       (e = ValueError /\ exists host, In host hosts /\ occurs nul host = true) \/
       (exists host w0, In host hosts /\ fst (gethostbyaddr host w0) = Raise e /\
                        lookup_handled (fst (gethostbyaddr host w0)) = false)).
Proof.
  induction hosts as [|host rest IH]; intros s w; cbv zeta.
  - unfold trace_of, result_of. simpl.
    split; [reflexivity|]. split; [reflexivity|]. split; [reflexivity|]. split; [|split].
    + exists 0%nat, 0%nat. repeat split; [lia | now left].
    + intros s1 H. injection H as <-. exists []. rewrite app_nil_r. repeat split.
    + intros e H. discriminate H.
  - rewrite scan_hosts_cons.
    pose proof (scan_host_facts host s w) as F. cbv zeta in F.
    destruct F as [Fp [Fl [Fc [Fk [Fret Fraise]]]]].
    destruct (scan_host host s w) as [[[s2|e] w2] t2];
      unfold trace_of, result_of in *; simpl fst in *; simpl snd in *.
    + destruct (Fret s2 eq_refl) as [Hnul [r0 [Hs2 [Hip [Hok Hst]]]]].
      rewrite Hnul in Fl.
      specialize (IH s2 w2). cbv zeta in IH.
      destruct IH as [Ic [Ik [In0 [[k [j [Hk [Ip [Il Ikj]]]]] [Iret Iraise]]]]].
      unfold trace_of, result_of in *.
      destruct (scan_hosts rest s2 w2) as [[r w3] t3]; simpl fst in *; simpl snd in *.
      unfold pings, lookups, csv_writes, clock_reads, ping_results in *.
      rewrite !flat_map_app, Fp, Fl, Fc, Fk, Ic, Ik.
      split; [reflexivity|]. split; [reflexivity|].
      split; [simpl; unfold no_nul at 1; now rewrite Hnul|].
      split; [|split].
      * exists (S k), (S j). simpl. rewrite Ip, Il.
        split; [lia|]. split; [reflexivity|]. split; [reflexivity|].
        destruct Ikj as [->|[<- [Hr Hh]]]; [now left | right; now repeat split].
      * intros s1 H.
        destruct (Iret s1 H) as [new [Hs1 [Hips [Hoks [Hsts [Hp Hl]]]]]].
        exists (r0 :: new). rewrite Hs1, Hs2, <- app_assoc.
        split; [reflexivity|]. split; [simpl; now rewrite Hip, Hips|].
        split; [simpl; now rewrite Hok, Hoks|].
        split; [rewrite map_app, Hst, <- Hsts; reflexivity|].
        rewrite Hp, Hl. now split.
      * intros e H. destruct (Iraise e H) as [[-> [h [Hin Hn]]] | [h [w0 [Hin Hr]]]].
        -- left. split; [reflexivity|]. exists h. split; [now right | exact Hn].
        -- right. exists h, w0. split; [now right | exact Hr].
    + split; [exact Fc|]. split; [exact Fk|].
      split; [rewrite Fl; destruct (occurs nul host) eqn:Hnul; simpl;
              [reflexivity | unfold no_nul; now rewrite Hnul]|].
      split; [|split].
      * destruct (Fraise e eq_refl) as [[Hnul ->] | [Hnul _]]; rewrite Hnul in Fl.
        -- exists 1%nat, 0%nat. simpl. rewrite Fp, Fl.
           split; [lia|]. split; [reflexivity|]. split; [reflexivity|].
           right. split; [reflexivity|]. split; [reflexivity|]. now exists host.
        -- exists 1%nat, 1%nat. simpl. rewrite Fp, Fl.
           split; [lia|]. split; [reflexivity|]. split; [reflexivity|]. now left.
      * intros s1 H. discriminate H.
      * intros e0 H. injection H as <-.
        destruct (Fraise e eq_refl) as [[Hnul ->] | [Hnul [w0 Hr]]].
        -- left. split; [reflexivity|]. exists host. split; [now left | exact Hnul].
        -- right. exists host, w0. split; [now left | exact Hr].
Qed.

Lemma exportToCSV_facts (results : list scan_record) (output_file : option string)
      (w : World) :
  let o := exportToCSV results output_file w in
  pings (trace_of o) = [] /\ lookups (trace_of o) = [] /\ ping_results (trace_of o) = [] /\
  (exists path, csv_writes (trace_of o) = [(map row_of results, path)] /\
     match output_file with
     | Some f => path = f /\ clock_reads (trace_of o) = []
     | None => exists stamp, clock_reads (trace_of o) = [stamp] /\
                             path = "scan_results_" ++ stamp ++ ".csv"
     end) /\
  (forall e, result_of o = Raise e ->
             exists rows path w0, fst (to_csv rows path w0) = Raise e /\ rows = map row_of results).
Proof.
  cbv zeta. rewrite exportToCSV_run. cbv zeta.
  destruct output_file as [f|]; simpl fst; simpl snd.
  - destruct (fst (to_csv (map row_of results) f w)) as [u|e0] eqn:Ew;
      unfold trace_of, result_of; simpl.
    + repeat split; try reflexivity.
      * exists f. now repeat split.
      * intros e H. discriminate H.
    + repeat split; try reflexivity.
      * exists f. now repeat split.
      * intros e H. injection H as <-. exists (map row_of results), f, w. now split.
  - destruct (fst (to_csv _ _ _)) as [u|e0] eqn:Ew; unfold trace_of, result_of; simpl.
    + repeat split; try reflexivity.
      * eexists. split; [reflexivity|]. eexists. split; reflexivity.
      * intros e H. discriminate H.
    + repeat split; try reflexivity.
      * eexists. split; [reflexivity|]. eexists. split; reflexivity.
      * intros e H. injection H as <-.
        eexists. eexists. eexists. split; [exact Ew | reflexivity].
Qed.

End ScanFacts.

Section ScanProperties.

Context {Sys : System}.

(** The trace of [runList] after the trace of its loop. *)
Lemma runList_trace (hosts : list string) (export_csv : bool) (csv_file : option string)
      (w : World) :
  forall active inactive results w1 t1,
    scan_hosts hosts (0, 0, []) w = (Ret (active, inactive, results), w1, t1) ->
    trace_of (runList hosts export_csv csv_file w) =
    (t1 ++ Printed (summary_line active inactive) ::
        (if export_csv then trace_of (exportToCSV results csv_file w1) else []))%list /\
    result_of (runList hosts export_csv csv_file w) =
    (if export_csv
     then match result_of (exportToCSV results csv_file w1) with
          | Ret _ => Ret results
          | Raise e => Raise e
          end
     else Ret results).
Proof.
  intros active inactive results w1 t1 H. rewrite runList_run, H.
  destruct export_csv; [|now split].
  destruct (exportToCSV results csv_file w1) as [[[p|e] w2] t2]; now split.
Qed.

Lemma runList_ok (hosts : list string) (export_csv : bool)
      (csv_file : option string) (w : World) (rs : list scan_record) :
  result_of (runList hosts export_csv csv_file w) = Ret rs ->
  forallb record_ok rs = true.
Proof.
  intros H.
  pose proof (scan_hosts_facts hosts (0, 0, []) w) as F. cbv zeta in F.
  destruct F as [_ [_ [_ [_ [Fret _]]]]].
  destruct (scan_hosts hosts (0, 0, []) w) as [[[[[active inactive] results]|e] w1] t1]
    eqn:Hscan; [|rewrite runList_run, Hscan in H; discriminate H].
  destruct (runList_trace hosts export_csv csv_file w _ _ _ _ _ Hscan) as [_ Hres].
  destruct (Fret _ eq_refl) as [new [Hnew [_ [Hoks _]]]]. simpl in Hnew. subst results.
  rewrite Hres in H. destruct export_csv.
  - destruct (result_of (exportToCSV new csv_file w1)); [|discriminate H].
    injection H as <-. exact Hoks.
  - injection H as <-. exact Hoks.
Qed.

(** X9. Every record [runList] returns is "active" or "inactive", carries the
    lookup of its own host, and in it either a hostname and no error, or one
    of the two error texts and then no hostname, no aliases and no
    addresses. *)
Theorem runList_records_ok (hosts : list string) (export_csv : bool)
        (csv_file : option string) (w : World) (rs : list scan_record) :
  result_of (runList hosts export_csv csv_file w) = Ret rs ->
  forallb record_ok rs = true /\
  (forall r, In r rs ->
     (status r = "active" \/ status r = "inactive") /\
     dns_ip (dns r) = ip r /\
     (hostname (dns r) = None <-> error (dns r) <> None)).
Proof.
  intros H. pose proof (runList_ok hosts export_csv csv_file w rs H) as Hok.
  split; [exact Hok|].
  intros r Hin. rewrite forallb_forall in Hok. specialize (Hok r Hin).
  unfold record_ok in Hok.
  apply andb_true_iff in Hok as [Hok Hdns]. apply andb_true_iff in Hok as [Hst Hip].
  apply orb_true_iff in Hst. apply String.eqb_eq in Hip.
  split; [destruct Hst as [Hs|Hs]; apply String.eqb_eq in Hs; auto|].
  split; [exact Hip|].
  destruct (hostname (dns r)), (error (dns r)); try discriminate Hdns;
    split; intros; try discriminate; congruence.
Qed.

(** The calls of [runList] are the calls of its loop, and when the loop
    raises, [runList] ends where the loop ended. *)
Lemma runList_loop (hosts : list string) (export_csv : bool) (csv_file : option string)
      (w : World) :
  pings (trace_of (runList hosts export_csv csv_file w))
    = pings (trace_of (scan_hosts hosts (0, 0, []) w)) /\
  lookups (trace_of (runList hosts export_csv csv_file w))
    = lookups (trace_of (scan_hosts hosts (0, 0, []) w)) /\
  ping_results (trace_of (runList hosts export_csv csv_file w))
    = ping_results (trace_of (scan_hosts hosts (0, 0, []) w)) /\
  (forall e, result_of (scan_hosts hosts (0, 0, []) w) = Raise e ->
             result_of (runList hosts export_csv csv_file w) = Raise e /\
             trace_of (runList hosts export_csv csv_file w)
               = trace_of (scan_hosts hosts (0, 0, []) w)) /\
  (forall rs, result_of (runList hosts export_csv csv_file w) = Ret rs ->
              exists active inactive,
                result_of (scan_hosts hosts (0, 0, []) w) = Ret (active, inactive, rs)).
Proof.
  destruct (scan_hosts hosts (0, 0, []) w) as [[[[[active inactive] results]|e] w1] t1]
    eqn:Hscan.
  - destruct (runList_trace hosts export_csv csv_file w _ _ _ _ _ Hscan) as [Ht Hres].
    rewrite Ht, Hres. unfold pings, lookups, ping_results, trace_of, result_of.
    simpl fst. simpl snd. rewrite !flat_map_app. simpl flat_map.
    assert (X : pings (trace_of (exportToCSV results csv_file w1)) = [] /\
                lookups (trace_of (exportToCSV results csv_file w1)) = [] /\
                ping_results (trace_of (exportToCSV results csv_file w1)) = []).
    { pose proof (exportToCSV_facts results csv_file w1) as X. cbv zeta in X.
      destruct X as [Xp [Xl [Xr _]]]. now repeat split. }
    destruct X as [Xp [Xl Xr]]. unfold pings, lookups, ping_results, trace_of in Xp, Xl, Xr.
    split; [destruct export_csv; [rewrite Xp|]; now rewrite app_nil_r|].
    split; [destruct export_csv; [rewrite Xl|]; now rewrite app_nil_r|].
    split; [destruct export_csv; [rewrite Xr|]; now rewrite app_nil_r|].
    split; [intros e H; discriminate H|].
    intros rs H. exists active, inactive.
    destruct export_csv.
    + destruct (fst (fst (exportToCSV results csv_file w1))); [|discriminate H].
      now injection H as <-.
    + now injection H as <-.
  - rewrite runList_run, Hscan. unfold trace_of, result_of. simpl fst. simpl snd.
    split; [reflexivity|]. split; [reflexivity|]. split; [reflexivity|].
    split; [intros e0 H; injection H as <-; now split|].
    intros rs H. discriminate H.
Qed.

(** X10. Whatever the end of the scan, the hosts pinged are first hosts of
    the list, each once and in the order of the list, and the hosts looked up
    are the same hosts, or these but the last: that only when the ping of that
    host, which has a NUL character in its name, was refused, and then
    [runList] raises the [ValueError] of the ping. When [runList] returns,
    all the hosts were pinged and looked up, and the status of the [k]-th
    record is "active" exactly when the [k]-th ping returned 0. *)
Theorem runList_calls (hosts : list string) (export_csv : bool)
        (csv_file : option string) (w : World) :
  (exists k j, (k <= List.length hosts)%nat /\
     pings (trace_of (runList hosts export_csv csv_file w))
       = map ping_command (firstn k hosts) /\
     lookups (trace_of (runList hosts export_csv csv_file w)) = firstn j hosts /\
     (j = k \/
      (S j = k /\
       result_of (runList hosts export_csv csv_file w) = Raise ValueError /\
       exists host, nth_error hosts j = Some host /\ occurs nul host = true))) /\
  (forall rs, result_of (runList hosts export_csv csv_file w) = Ret rs ->
     pings (trace_of (runList hosts export_csv csv_file w)) = map ping_command hosts /\
     lookups (trace_of (runList hosts export_csv csv_file w)) = hosts /\
     map status rs =
       map status_of (ping_results (trace_of (runList hosts export_csv csv_file w)))).
Proof.
  pose proof (scan_hosts_facts hosts (0, 0, []) w) as F. cbv zeta in F.
  destruct F as [_ [_ [_ [[k [j [Hk [Hp [Hl Hkj]]]]] [Fret _]]]]].
  destruct (runList_loop hosts export_csv csv_file w) as [Qp [Ql [Qr [Qraise Qret]]]].
  rewrite Qp, Ql, Qr. split.
  - exists k, j. split; [exact Hk|]. split; [exact Hp|]. split; [exact Hl|].
    destruct Hkj as [E|[E [Hr Hh]]]; [now left|].
    right. split; [exact E|]. split; [exact (proj1 (Qraise _ Hr)) | exact Hh].
  - intros rs H. destruct (Qret rs H) as [active [inactive Hs]].
    destruct (Fret _ Hs) as [new [Hnew [_ [_ [Hsts [Hpa Hla]]]]]].
    simpl in Hnew. subst new. now repeat split.
Qed.

Lemma runList_no_files (hosts : list string) (csv_file : option string) (w : World) :
  csv_writes (trace_of (runList hosts false csv_file w)) = [] /\
  clock_reads (trace_of (runList hosts false csv_file w)) = [].
Proof.
  pose proof (scan_hosts_facts hosts (0, 0, []) w) as F. cbv zeta in F.
  destruct F as [Fc [Fk _]].
  destruct (scan_hosts hosts (0, 0, []) w) as [[[[[active inactive] results]|e] w1] t1]
    eqn:Hscan; unfold trace_of in Fc, Fk; simpl in Fc, Fk.
  - destruct (runList_trace hosts false csv_file w _ _ _ _ _ Hscan) as [Ht _].
    rewrite Ht. unfold csv_writes, clock_reads in *. rewrite !flat_map_app, Fc, Fk.
    now split.
  - rewrite runList_run, Hscan. unfold trace_of. simpl. now split.
Qed.

Lemma runList_table (hosts : list string) (csv_file : option string) (w : World)
      (rs : list scan_record) :
  result_of (runList hosts true csv_file w) = Ret rs ->
  exists path,
    csv_writes (trace_of (runList hosts true csv_file w)) = [(map row_of rs, path)] /\
    match csv_file with
    | Some f => path = f /\ clock_reads (trace_of (runList hosts true csv_file w)) = []
    | None =>
        exists stamp,
          clock_reads (trace_of (runList hosts true csv_file w)) = [stamp] /\
          path = "scan_results_" ++ stamp ++ ".csv"
    end.
Proof.
  pose proof (scan_hosts_facts hosts (0, 0, []) w) as F. cbv zeta in F.
  destruct F as [Fc [Fk _]].
  destruct (scan_hosts hosts (0, 0, []) w) as [[[[[active inactive] results]|e] w1] t1]
    eqn:Hscan; unfold trace_of in Fc, Fk; simpl in Fc, Fk.
  - destruct (runList_trace hosts true csv_file w _ _ _ _ _ Hscan) as [Ht Hres].
    rewrite Ht, Hres. unfold csv_writes, clock_reads in *. rewrite !flat_map_app, Fc, Fk.
    intros H.
    pose proof (exportToCSV_facts results csv_file w1) as X. cbv zeta in X.
    destruct X as [_ [_ [_ [[path [Xw Xp]] _]]]]. unfold csv_writes, clock_reads in Xw, Xp.
    destruct (result_of (exportToCSV results csv_file w1)); [|discriminate H].
    injection H as <-. exists path. simpl. split; [exact Xw|].
    destruct csv_file as [f|]; exact Xp.
  - rewrite runList_run, Hscan. unfold result_of. simpl. intros H. discriminate H.
Qed.

(** X11. With the export off, [runList] writes no table and does not read
    the clock. With the export on, when [runList] returns it has written one
    table, with the rows of the records it returns, under the path it was
    given, without reading the clock, or, given none, under
    [scan_results_<stamp>.csv] for the one stamp it read. *)
Theorem runList_files (hosts : list string) (export_csv : bool)
        (csv_file : option string) (w : World) :
  (export_csv = false ->
   csv_writes (trace_of (runList hosts export_csv csv_file w)) = [] /\
   clock_reads (trace_of (runList hosts export_csv csv_file w)) = []) /\
  (forall rs,
      export_csv = true ->
      result_of (runList hosts export_csv csv_file w) = Ret rs ->
      exists path,
        csv_writes (trace_of (runList hosts export_csv csv_file w))
          = [(map row_of rs, path)] /\
        match csv_file with
        | Some f =>
            path = f /\ clock_reads (trace_of (runList hosts export_csv csv_file w)) = []
        | None =>
            exists stamp,
              clock_reads (trace_of (runList hosts export_csv csv_file w)) = [stamp] /\
              path = "scan_results_" ++ stamp ++ ".csv"
        end).
Proof.
  split.
  - intros ->. apply runList_no_files.
  - intros rs -> H. now apply runList_table.
Qed.

(** X16. The table of a scan: when [runList] returns with the export on, the
    one table it wrote has a row per host, the hosts in its first column in
    the order of the list; in each row the status is "active" or "inactive",
    and the DNS error is empty or one of the two error texts, and then the
    hostname, the aliases and the addresses of the row are empty. *)
Theorem runList_table_rows (hosts : list string) (csv_file : option string) (w : World)
        (rs : list scan_record) :
  result_of (runList hosts true csv_file w) = Ret rs ->
  exists rows path,
    csv_writes (trace_of (runList hosts true csv_file w)) = [(rows, path)] /\
    List.length rows = List.length hosts /\
    map col_ip_address rows = hosts /\
    (forall row, In row rows ->
       (col_status row = "active" \/ col_status row = "inactive") /\
       (col_dns_error row = "" \/ col_dns_error row = "No PTR record found" \/
        col_dns_error row = "Invalid IP address") /\
       (col_dns_error row <> "" ->
        col_hostname row = "" /\ col_aliases row = "" /\ col_addresses row = "")).
Proof.
  intros H.
  destruct (runList_table hosts csv_file w rs H) as [path [Hw _]].
  pose proof (runList_result hosts true csv_file w rs H) as Hips.
  pose proof (runList_ok hosts true csv_file w rs H) as Hok.
  exists (map row_of rs), path. split; [exact Hw|].
  split; [rewrite length_map, <- Hips; now rewrite length_map|].
  split; [rewrite map_map; exact Hips|].
  intros row Hin. apply in_map_iff in Hin as [r [<- Hr]].
  rewrite forallb_forall in Hok. specialize (Hok r Hr). unfold record_ok in Hok.
  apply andb_true_iff in Hok as [Hok Hdns]. apply andb_true_iff in Hok as [Hst _].
  apply orb_true_iff in Hst. unfold row_of. simpl.
  split; [destruct Hst as [Hs|Hs]; apply String.eqb_eq in Hs; auto|].
  destruct (hostname (dns r)) as [h|], (error (dns r)) as [e|]; try discriminate Hdns; simpl.
  - split; [now left|]. intros N. now contradiction N.
  - apply andb_true_iff in Hdns as [Hd Had]. apply andb_true_iff in Hd as [He Hal].
    apply orb_true_iff in He.
    split; [destruct He as [He|He]; apply String.eqb_eq in He; auto|].
    intros _. destruct (aliases (dns r)); [|discriminate Hal].
    destruct (addresses (dns r)); [|discriminate Had]. now repeat split.
Qed.

(** X12. [runList] raises in three cases only. The ping of one of its hosts
    was refused for a NUL character in the name of the host: the exception is
    a [ValueError], and that host is not looked up. Or the lookup of one of
    its hosts raised an exception that is neither [herror] nor [gaierror]. In
    these two cases no table is written, and the records collected so far are
    lost. Or the export was on and the table writer raised, given one row per
    host. In each case [runList] raises that exception. *)
Theorem runList_raises (hosts : list string) (export_csv : bool)
        (csv_file : option string) (w : World) (e : exn) :
  result_of (runList hosts export_csv csv_file w) = Raise e ->
  (e = ValueError /\
   csv_writes (trace_of (runList hosts export_csv csv_file w)) = [] /\
   exists host,
     In host hosts /\ occurs nul host = true /\
     ~ In host (lookups (trace_of (runList hosts export_csv csv_file w)))) \/
  (exists host w0,
      In host hosts /\ fst (gethostbyaddr host w0) = Raise e /\
      e <> herror /\ e <> gaierror /\
      csv_writes (trace_of (runList hosts export_csv csv_file w)) = []) \/
  (export_csv = true /\
   exists rows path w0,
     fst (to_csv rows path w0) = Raise e /\ List.length rows = List.length hosts).
Proof.
  intros H.
  pose proof (scan_hosts_facts hosts (0, 0, []) w) as F. cbv zeta in F.
  destruct F as [Fc [_ [Fn [_ [Fret Fraise]]]]].
  destruct (runList_loop hosts export_csv csv_file w) as [_ [_ [_ [Qraise _]]]].
  destruct (scan_hosts hosts (0, 0, []) w) as [[[[[active inactive] results]|e0] w1] t1]
    eqn:Hscan.
  - right. right.
    destruct (runList_trace hosts export_csv csv_file w _ _ _ _ _ Hscan) as [_ Hres].
    rewrite Hres in H. destruct export_csv; [|discriminate H].
    split; [reflexivity|].
    pose proof (exportToCSV_facts results csv_file w1) as X. cbv zeta in X.
    destruct X as [_ [_ [_ [_ Xr]]]].
    destruct (result_of (exportToCSV results csv_file w1)) as [p|e1]; [discriminate H|].
    injection H as <-. destruct (Xr e1 eq_refl) as [rows [path [w0 [Hw ->]]]].
    exists (map row_of results), path, w0. split; [exact Hw|].
    destruct (Fret _ eq_refl) as [new [Hnew [Hips _]]]. simpl in Hnew. subst results.
    now rewrite length_map, <- Hips, length_map.
  - destruct (Qraise e0 eq_refl) as [Hres Ht]. rewrite Hres in H. injection H as <-.
    rewrite Ht.
    destruct (Fraise e0 eq_refl) as [[-> [host [Hin Hnul]]] | [host [w0 [Hin [Hr Hh]]]]].
    + left. split; [reflexivity|]. split; [exact Fc|].
      exists host. split; [exact Hin|]. split; [exact Hnul|].
      intros Hlook. rewrite forallb_forall in Fn. specialize (Fn host Hlook).
      unfold no_nul in Fn. rewrite Hnul in Fn. discriminate Fn.
    + right. left. exists host, w0. split; [exact Hin|]. split; [exact Hr|].
      rewrite Hr in Hh. simpl in Hh.
      split; [intros ->; discriminate Hh|]. split; [intros ->; discriminate Hh|exact Fc].
Qed.

End ScanProperties.

(** ** The export and the entry point *)

Section ExportOutcome.

Context {Sys : System}.

(** X13. [exportToCSV] prints its one line, naming the path it returns, only
    after the table was written; when the table writer raises, [exportToCSV]
    raises the same exception and prints nothing. *)
Theorem exportToCSV_outcome (results : list scan_record) (output_file : option string)
        (w : World) :
  (forall e,
      result_of (exportToCSV results output_file w) = Raise e ->
      existsb is_printed (trace_of (exportToCSV results output_file w)) = false /\
      exists path,
        In (CsvWrite (map row_of results) path (Raise e))
           (trace_of (exportToCSV results output_file w))) /\
  (forall path,
      result_of (exportToCSV results output_file w) = Ret path ->
      last (trace_of (exportToCSV results output_file w)) (Printed EmptyString)
        = Printed (nl ++ "Results exported to: " ++ path) /\
      exists u,
        In (CsvWrite (map row_of results) path (Ret u))
           (trace_of (exportToCSV results output_file w))).
Proof.
  rewrite exportToCSV_run. cbv zeta.
  destruct output_file as [f|]; simpl fst; simpl snd;
    destruct (fst (to_csv _ _ _)) as [u|e0]; unfold trace_of, result_of; simpl;
    (split; [intros e H | intros path H]); try discriminate H; injection H as <-.
  - split; [reflexivity|]. exists u. now left.
  - split; [reflexivity|]. eexists. left. reflexivity.
  - split; [reflexivity|]. exists u. right. now left.
  - split; [reflexivity|]. eexists. right. left. reflexivity.
Qed.

End ExportOutcome.



Section Entry.

Context {Sys : System}.



End Entry.

(** ** The further properties in the laboratories *)

Lemma reverseDNS_shape_witness :
  dns_ip {| dns_ip := "10.0.0.3"; hostname := None; aliases := []; addresses := [];
            error := Some "Invalid IP address" |} = "10.0.0.3" /\
  (hostname {| dns_ip := "10.0.0.3"; hostname := None; aliases := []; addresses := [];
               error := Some "Invalid IP address" |} = None <->
   error {| dns_ip := "10.0.0.3"; hostname := None; aliases := []; addresses := [];
            error := Some "Invalid IP address" |} <> None) /\
  (error {| dns_ip := "10.0.0.3"; hostname := None; aliases := []; addresses := [];
            error := Some "Invalid IP address" |} <> None ->
   aliases {| dns_ip := "10.0.0.3"; hostname := None; aliases := []; addresses := [];
              error := Some "Invalid IP address" |} = [] /\
   addresses {| dns_ip := "10.0.0.3"; hostname := None; aliases := []; addresses := [];
                error := Some "Invalid IP address" |} = []).
Proof.
  apply (proj2 (proj2 (@reverseDNS_shape lab "10.0.0.3" tt))). reflexivity.
Defined.

Lemma runList_records_ok_witness :
  forallb record_ok lab_records = true /\
  (forall r, In r lab_records ->
     (status r = "active" \/ status r = "inactive") /\
     dns_ip (dns r) = ip r /\
     (hostname (dns r) = None <-> error (dns r) <> None)).
Proof. apply (@runList_records_ok lab lab_hosts true None tt lab_records). reflexivity. Defined.

Lemma runList_calls_witness :
  pings (trace_of (@runList lab lab_hosts true None tt)) = map ping_command lab_hosts /\
  lookups (trace_of (@runList lab lab_hosts true None tt)) = lab_hosts /\
  map status lab_records =
    map status_of (ping_results (trace_of (@runList lab lab_hosts true None tt))).
Proof.
  apply (proj2 (@runList_calls lab lab_hosts true None tt) lab_records). reflexivity.
Defined.

Lemma runList_files_witness :
  exists path,
    csv_writes (trace_of (@runList lab lab_hosts true (Some "scan.csv") tt))
      = [(map row_of lab_records, path)] /\
    path = "scan.csv" /\
    clock_reads (trace_of (@runList lab lab_hosts true (Some "scan.csv") tt)) = [].
Proof.
  apply (proj2 (@runList_files lab lab_hosts true (Some "scan.csv") tt) lab_records);
    reflexivity.
Defined.

Lemma runList_raises_witness :
  ((UnicodeError = ValueError /\
    csv_writes (trace_of (@runList faulty_lab ["10.0.0.1"; "1..2"] true None tt)) = [] /\
    exists host,
      In host ["10.0.0.1"; "1..2"] /\ occurs nul host = true /\
      ~ In host (lookups (trace_of (@runList faulty_lab ["10.0.0.1"; "1..2"] true None tt)))) \/
   (exists host w0,
       In host ["10.0.0.1"; "1..2"] /\
       fst (@gethostbyaddr faulty_lab host w0) = Raise UnicodeError /\
       UnicodeError <> herror /\ UnicodeError <> gaierror /\
       csv_writes (trace_of (@runList faulty_lab ["10.0.0.1"; "1..2"] true None tt)) = []) \/
   (true = true /\
    exists rows path w0,
      fst (@to_csv faulty_lab rows path w0) = Raise UnicodeError /\
      List.length rows = List.length ["10.0.0.1"; "1..2"])) /\
  ((ValueError = ValueError /\
    csv_writes (trace_of (@runList lab ["10.0.0.1"; nul_host] false None tt)) = [] /\
    exists host,
      In host ["10.0.0.1"; nul_host] /\ occurs nul host = true /\
      ~ In host (lookups (trace_of (@runList lab ["10.0.0.1"; nul_host] false None tt)))) \/
   (exists host w0,
       In host ["10.0.0.1"; nul_host] /\
       fst (@gethostbyaddr lab host w0) = Raise ValueError /\
       ValueError <> herror /\ ValueError <> gaierror /\
       csv_writes (trace_of (@runList lab ["10.0.0.1"; nul_host] false None tt)) = []) \/
   (false = true /\
    exists rows path w0,
      fst (@to_csv lab rows path w0) = Raise ValueError /\
      List.length rows = List.length ["10.0.0.1"; nul_host])).
Proof.
  split.
  - apply (@runList_raises faulty_lab ["10.0.0.1"; "1..2"] true None tt UnicodeError).
    reflexivity.
  - apply (@runList_raises lab ["10.0.0.1"; nul_host] false None tt ValueError).
    reflexivity.
Defined.

(** A scan that ends at a ping: the second host is pinged and not looked
    up, and the third host is not reached. *)
Example runList_refused_ping :
  result_of (@runList lab ["10.0.0.1"; nul_host; "10.0.0.2"] false None tt)
    = Raise ValueError /\
  pings (trace_of (@runList lab ["10.0.0.1"; nul_host; "10.0.0.2"] false None tt))
    = [ping_command "10.0.0.1"; ping_command nul_host] /\
  lookups (trace_of (@runList lab ["10.0.0.1"; nul_host; "10.0.0.2"] false None tt))
    = ["10.0.0.1"].
Proof. repeat split; reflexivity. Qed.

Lemma scan_host_calls_witness :
  (exists st r rest,
     trace_of (@scan_host lab "10.0.0.2" (0, 0, []) tt) =
       Printed ("Pinging " ++ "10.0.0.2" ++ "...") :: SystemCall (ping_command "10.0.0.2") ::
       SystemRet (Ret st) :: LookupCall "10.0.0.2" :: LookupRet r :: rest /\
     forallb is_printed rest = true) /\
  @scan_host lab nul_host (0, 0, []) tt =
    (Raise ValueError, tt,
     [Printed ("Pinging " ++ nul_host ++ "..."); SystemCall (ping_command nul_host);
      SystemRet (Raise ValueError)]).
Proof.
  split.
  - apply (proj1 (@scan_host_calls lab "10.0.0.2" (0, 0, []) tt)). reflexivity.
  - apply (proj2 (@scan_host_calls lab nul_host (0, 0, []) tt)). reflexivity.
Defined.

Lemma exportToCSV_outcome_witness :
  (existsb is_printed (trace_of (@exportToCSV readonly_lab lab_records None tt)) = false /\
   exists path,
     In (CsvWrite (map row_of lab_records) path (Raise OSError))
        (trace_of (@exportToCSV readonly_lab lab_records None tt))) /\
  (last (trace_of (@exportToCSV lab lab_records (Some "scan.csv") tt)) (Printed EmptyString)
     = Printed (nl ++ "Results exported to: " ++ "scan.csv") /\
   exists u,
     In (CsvWrite (map row_of lab_records) "scan.csv" (Ret u))
        (trace_of (@exportToCSV lab lab_records (Some "scan.csv") tt))).
Proof.
  split.
  - apply (proj1 (@exportToCSV_outcome readonly_lab lab_records None tt) OSError).
    reflexivity.
  - apply (proj2 (@exportToCSV_outcome lab lab_records (Some "scan.csv") tt) "scan.csv").
    reflexivity.
Defined.


Lemma runList_table_rows_witness :
  exists rows path,
    csv_writes (trace_of (@runList lab lab_hosts true None tt)) = [(rows, path)] /\
    List.length rows = List.length lab_hosts /\
    map col_ip_address rows = lab_hosts /\
    (forall row, In row rows ->
       (col_status row = "active" \/ col_status row = "inactive") /\
       (col_dns_error row = "" \/ col_dns_error row = "No PTR record found" \/
        col_dns_error row = "Invalid IP address") /\
       (col_dns_error row <> "" ->
        col_hostname row = "" /\ col_aliases row = "" /\ col_addresses row = "")).
Proof. apply (@runList_table_rows lab lab_hosts None tt lab_records). reflexivity. Defined.
